(** * lgtm.py: the LGTM session client, its retry wrapper and its
      project normaliser

    A shallow embedding of [src/lgtm.py].  Python values that come out of
    a JSON body are kept dynamically typed ([json]); every operator the
    source applies to them is written out with the exception it raises on
    the wrong kind of value.  Code that talks to the outside (HTTP calls,
    [print], [time.sleep]) runs in a state-and-exception monad, the state
    of the session client being the trace of everything it did so far. *)

From stdpp Require Import base list strings.
From Stdlib Require Import ZArith Lia Ascii String.

Local Open Scope Z_scope.
Set Warnings "-register-all".

(** ** Python values *)

(** What [json.loads] can return.  A float keeps its literal: no source
    line computes with one.  A [JObj] lists the items of a [dict] in
    insertion order. *)
Inductive json : Type :=
| JNull
| JBool (b : bool)
| JInt (n : Z)
| JFloat (literal : string)
| JStr (s : string)
| JList (items : list json)
| JObj (fields : list (string * json)).

(** A [dict] with [str] keys, in insertion order. *)
Abbreviation dict V := (list (string * V)).

Fixpoint dict_get {V : Type} (k : string) (d : dict V) : option V :=
  match d with
  | [] => None
  | (k', v) :: d' => if decide (k' = k) then Some v else dict_get k d'
  end.

(** [k in d] *)
Definition dict_contains {V : Type} (k : string) (d : dict V) : bool :=
  match dict_get k d with Some _ => true | None => false end.

(** [d[k] = v]: a key already there keeps its place. *)
Fixpoint dict_set {V : Type} (k : string) (v : V) (d : dict V) : dict V :=
  match d with
  | [] => [(k, v)]
  | (k', v') :: d' =>
      if decide (k' = k) then (k, v) :: d' else (k', v') :: dict_set k v d'
  end.

(** [{**a, **b}] *)
Definition dict_merge {V : Type} (a b : dict V) : dict V :=
  foldl (fun acc kv => dict_set kv.1 kv.2 acc) a b.

(** The one-character string of the double quote (code 34). *)
Definition dquote : string := String (ascii_of_nat 34) EmptyString.

Definition slash : ascii := ascii_of_nat 47.

(** [needle in hay] for two [str]. *)
Fixpoint is_substring (needle hay : string) : bool :=
  String.prefix needle hay
  || match hay with
     | EmptyString => false
     | String _ rest => is_substring needle rest
     end.

(** [s.split(sep)] for a one-character separator: never empty, one more
    segment than there are separators. *)
Fixpoint split_on (sep : ascii) (s : string) : list string :=
  match s with
  | EmptyString => [EmptyString]
  | String c rest =>
      if decide (c = sep) then EmptyString :: split_on sep rest
      else match split_on sep rest with
           | seg :: segs => String c seg :: segs
           | [] => [String c EmptyString]
           end
  end.

(** [sep.join(parts)] *)
Fixpoint join (sep : string) (parts : list string) : string :=
  match parts with
  | [] => EmptyString
  | [p] => p
  | p :: rest => p +:+ sep +:+ join sep rest
  end.

(** ** Exceptions *)

(** [SSLError] is [requests.exceptions.SSLError]; [LGTMRequestException]
    carries its message and the exception it was raised [from].  The
    built-in errors keep the argument only where the source gives one a
    reader relies on. *)
Inductive exn : Type :=
| SSLError (info : string)
| LGTMRequestException (msg : string) (cause : option exn)
| KeyError (arg : json)
| ValueError (info : string)
| IndexError
| TypeError
| AttributeError
| RecursionError
| OtherError (class_name info : string).

(** [except SSLError]: the class itself; no subclass of it is modelled. *)
Definition is_SSLError (e : exn) : bool :=
  match e with SSLError _ => true | _ => false end.

(** [except LGTMRequestException] *)
Definition is_LGTMRequestException (e : exn) : bool :=
  match e with LGTMRequestException _ _ => true | _ => false end.

Inductive res (A : Type) : Type :=
| Ret (a : A)
| Raise (e : exn).
Arguments Ret {A} a.
Arguments Raise {A} e.

(** ** The monad of effectful code: state [St], result or exception *)

Definition M (St A : Type) : Type := St -> res A * St.

Definition ret {St A : Type} (a : A) : M St A := fun s => (Ret a, s).

Definition raise {St A : Type} (e : exn) : M St A := fun s => (Raise e, s).

Definition bind {St A B : Type} (m : M St A) (k : A -> M St B) : M St B :=
  fun s =>
    match m s with
    | (Ret a, s') => k a s'
    | (Raise e, s') => (Raise e, s')
    end.

(** [try: m  except <cls> as e: handler e]; [handler e = None] when [e]
    is not of the class named by the clause, and then [e] goes on. *)
Definition try_except {St A : Type}
    (m : M St A) (handler : exn -> option (M St A)) : M St A :=
  fun s =>
    match m s with
    | (Ret a, s') => (Ret a, s')
    | (Raise e, s') =>
        match handler e with
        | Some k => k s'
        | None => (Raise e, s')
        end
    end.

Definition lift {St A : Type} (r : res A) : M St A := fun s => (r, s).

Declare Scope py_scope.
Delimit Scope py_scope with py.
Notation "x <~ m ;; k" := (bind m (fun x => k))
  (at level 100, m at next level, right associativity) : py_scope.
Notation "m ;;; k" := (bind m (fun _ => k))
  (at level 100, right associativity) : py_scope.
Local Open Scope py_scope.

(** [for x in l: body x] *)
Fixpoint for_each {St A : Type} (l : list A) (body : A -> M St unit) : M St unit :=
  match l with
  | [] => ret tt
  | x :: l' => body x ;;; for_each l' body
  end.

(** ** Operators on dynamically typed values *)

(** [needle in v] with a [str] on the left: a key of a [dict], an element
    of a [list], a substring of a [str]; anything else is not a
    container. *)
Definition py_contains (needle : string) (v : json) : res bool :=
  match v with
  | JObj o => Ret (dict_contains needle o)
  | JList l =>
      Ret (existsb (fun x => match x with
                             | JStr s => bool_decide (s = needle)
                             | _ => false
                             end) l)
  | JStr s => Ret (is_substring needle s)
  | _ => Raise TypeError
  end.

(** [v[k]] with a [str] subscript. *)
Definition py_getitem (v : json) (k : string) : res json :=
  match v with
  | JObj o =>
      match dict_get k o with
      | Some x => Ret x
      | None => Raise (KeyError (JStr k))
      end
  | _ => Raise TypeError
  end.

(** [v[0]] *)
Definition py_first (v : json) : res json :=
  match v with
  | JList (x :: _) => Ret x
  | JList [] => Raise IndexError
  | JStr (String c _) => Ret (JStr (String c EmptyString))
  | JStr EmptyString => Raise IndexError
  | JObj _ => Raise (KeyError (JInt 0))
  | _ => Raise TypeError
  end.

(** [v == s] for a [str] [s]: only an equal [str] is equal to it. *)
Definition py_eq_str (v : json) (s : string) : bool :=
  match v with
  | JStr t => bool_decide (t = s)
  | _ => false
  end.

(** [v.split('/')] *)
Definition py_split (v : json) : res (list string) :=
  match v with
  | JStr s => Ret (split_on slash s)
  | _ => Raise AttributeError
  end.

(** [for x in v] *)
Definition py_iter (v : json) : res (list json) :=
  match v with
  | JList l => Ret l
  | JObj o => Ret (map (fun kv => JStr kv.1) o)
  | JStr s => Ret (map (fun c => JStr (String c EmptyString)) (list_ascii_of_string s))
  | _ => Raise TypeError
  end.

(** ** The resilient request executor *)

Record Response : Type := {
  text : string;              (* r.text *)
  json_body : option json     (* r.json(): None when the body is not JSON *)
}.

(** [LGTMSite._resilient_request], with the recursion counted down by
    [fuel]: one unit per retry.  (The depth Python allows a recursion is
    not modelled: the callers pass no [retry_count], so it starts at 0.) *)
Fixpoint resilient_loop {St : Type} (fuel : nat)
    (request_method : M St Response) (retry_count : Z) : M St Response :=
  try_except request_method (fun e =>
    if is_SSLError e then
      Some (if retry_count <? 4 then
              match fuel with
              | O => raise RecursionError
              | S fuel' => resilient_loop fuel' request_method (retry_count + 1)
              end
            else raise (LGTMRequestException "SSL Error" (Some e)))
    else None).

(** The retries left below the cap are all the fuel the recursion needs
    (see [_resilient_request_unfold]). *)
Definition _resilient_request {St : Type}
    (request_method : M St Response) (retry_count : Z) : M St Response :=
  resilient_loop (Z.to_nat (4 - retry_count)) request_method retry_count.

(** A thunk that also counts how often it was called. *)
Definition counted {St A : Type} (thunk : M St A) : M (St * nat) A :=
  fun sn =>
    match thunk sn.1 with
    | (r, s') => (r, (s', S sn.2))
    end.

(** How many times [_resilient_request] calls its thunk from state [s]. *)
Definition attempts {St : Type}
    (request_method : M St Response) (retry_count : Z) (s : St) : nat :=
  (_resilient_request (counted request_method) retry_count (s, O)).2.2.

(** The state in which attempt number [k] (from 0) of a thunk starts. *)
Fixpoint state_before {St A : Type} (thunk : M St A) (k : nat) (s : St) : St :=
  match k with
  | O => s
  | S k' => state_before thunk k' (thunk s).2
  end.

(** What attempt number [k] (from 0) of a thunk gives, each attempt
    starting where the one before left the state. *)
Definition outcome_of_attempt {St A : Type}
    (thunk : M St A) (k : nat) (s : St) : res A :=
  (thunk (state_before thunk k s)).1.

(** The thunk raised [SSLError]. *)
Definition fails_in_ssl {A : Type} (r : res A) : bool :=
  match r with
  | Raise e => is_SSLError e
  | Ret _ => false
  end.

(** ** The response normaliser *)

Record SimpleProject : Type := {
  display_name : json;
  key : json;
  is_protoproject : bool
}.

(** [SimpleProject.make_post_data] *)
Definition make_post_data (p : SimpleProject) : dict json :=
  let data_dict_key :=
    if is_protoproject p then "protoproject_key"%string else "project_key"%string in
  [(data_dict_key, key p)].

(** The locals of [org_to_ids] while its loop runs.  [org_to_ids_var] is
    the dict being built; it holds, for each organisation, the address of
    a list object in [heap], the very object that [ids_list] names and
    that [ids_list.append] changes in place. *)
Record locals : Type := {
  org_to_ids_var : dict nat;
  heap : list (list SimpleProject)
}.

(** The dict as its reader sees it: each list object looked up. *)
Definition snapshot (st : locals) : dict (list SimpleProject) :=
  map (fun ka => (ka.1, default [] (heap st !! ka.2))) (org_to_ids_var st).

(** Lines 270-280: find or create the organisation's list, then append
    to it in place. *)
Definition append_under (org : string) (p : SimpleProject) (st : locals) : locals :=
  let '(ids_list, st1) :=
    match dict_get org (org_to_ids_var st) with
    | Some a => (a, st)
    | None =>
        let a := List.length (heap st) in
        (a, {| org_to_ids_var := dict_set org a (org_to_ids_var st);
               heap := heap st ++ [[]] |})
    end in
  {| org_to_ids_var := org_to_ids_var st1;
     heap := alter (fun l => l ++ [p]) ids_list (heap st1) |}.

(** ** The world of the session client *)

Record LGTMSite : Type := {
  nonce : string;
  long_session : string;
  short_session : string;
  api_version : string
}.

(** Everything the client does that is seen from outside, in order. *)
Inductive event : Type :=
| HttpGet (url : string) (cookies headers : dict string)
| HttpPost (url : string) (data : dict json) (cookies headers : dict string)
| Printed (line : string)
| Slept (seconds : Z).

Abbreviation trace := (list event).

(** [print(line)] *)
Definition print (line : string) : M trace unit :=
  fun tr => (Ret tt, tr ++ [Printed line]).

(** [time.sleep(seconds)] *)
Definition time_sleep (seconds : Z) : M trace unit :=
  fun tr => (Ret tt, tr ++ [Slept seconds]).

(** [LGTMSite._cookies] *)
Definition _cookies (self : LGTMSite) : dict string :=
  [("lgtm_long_session"%string, long_session self);
   ("lgtm_short_session"%string, short_session self)].

(** [LGTMSite._headers] *)
Definition _headers (self : LGTMSite) : dict string :=
  [("LGTM-Nonce"%string, nonce self)].

(** [r.json()]: the parsed body, or the [ValueError] that
    [requests] raises on a body that is not JSON. *)
Definition response_json {St : Type} (r : Response) : M St json :=
  match json_body r with
  | Some j => ret j
  | None => raise (ValueError "JSONDecodeError")
  end.

Section LGTM.

(** [repr] of a value that came out of JSON: taken as given. *)
Variable py_repr : json -> string.

(** [str(v)]: a [str] is its own text, anything else prints as its
    [repr]. *)
Definition py_str (v : json) : string :=
  match v with
  | JStr s => s
  | _ => py_repr v
  end.

(** The [KeyError] of line 268. *)
Definition unrecognized_shape (project : json) : exn :=
  KeyError (JStr ("'realProject' nor 'protoproject' in " +:+ py_str project)).

(** The body of the loop of [org_to_ids] (lines 244-280); [continue] is
    [ret tt]. *)
Definition org_to_ids_body (project : json) : M locals unit :=
  has_proto <~ lift (py_contains "protoproject" project) ;;
  if has_proto : bool then
    the_project <~ lift (py_getitem project "protoproject") ;;
    clone_url <~ lift (py_getitem the_project "cloneUrl") ;;
    github <~ lift (py_contains "https://github.com/" clone_url) ;;
    if negb github then ret tt
    else
      display_name <~ lift (py_getitem the_project "displayName") ;;
      segments <~ lift (py_split display_name) ;;
      let org := hd EmptyString segments in
      key <~ lift (py_getitem the_project "key") ;;
      fun st => (Ret tt, append_under org
                   {| display_name := display_name; key := key;
                      is_protoproject := true |} st)
  else
    has_real <~ lift (py_contains "realProject" project) ;;
    if has_real : bool then
      real <~ lift (py_getitem project "realProject") ;;
      the_project <~ lift (py_first real) ;;
      provider <~ lift (py_getitem the_project "repoProvider") ;;
      if negb (py_eq_str provider "github_apps") then ret tt
      else
        slug <~ lift (py_getitem the_project "slug") ;;
        match split_on slash (py_str slug) !! 1%nat with
        | None => raise IndexError
        | Some org =>
            display_name <~ lift (py_getitem the_project "displayName") ;;
            key <~ lift (py_getitem the_project "key") ;;
            fun st => (Ret tt, append_under org
                         {| display_name := display_name; key := key;
                            is_protoproject := false |} st)
        end
    else raise (unrecognized_shape project).

Definition no_locals : locals := {| org_to_ids_var := []; heap := [] |}.

(** [LGTMDataFilters.org_to_ids]: the dict is returned when the loop
    ends, and nothing is when an exception leaves it. *)
Definition org_to_ids (projects : list json) : res (dict (list SimpleProject)) :=
  match for_each projects org_to_ids_body no_locals with
  | (Ret _, st) => Ret (snapshot st)
  | (Raise e, _) => Raise e
  end.

(** [LGTMDataFilters.extract_project_under_org] *)
Definition extract_project_under_org
    (org : string) (projects_sorted : dict (list SimpleProject))
    : M trace (list SimpleProject) :=
  if negb (dict_contains org projects_sorted) then
    print ("org " +:+ org +:+ " not found in projects list") ;;;
    ret []
  else
    match dict_get org projects_sorted with
    | Some l => ret l
    | None => raise (KeyError (JStr org))
    end.

(** [str] of a [SimpleProject]: the [repr] its dataclass generates. *)
Definition SimpleProject_repr (p : SimpleProject) : string :=
  "SimpleProject(display_name=" +:+ py_repr (display_name p)
  +:+ ", key=" +:+ py_repr (key p)
  +:+ ", is_protoproject=" +:+ (if is_protoproject p then "True" else "False")
  +:+ ")".

(** ** The session client *)

(** What the remote end answers to a request, given everything that
    happened up to and including it: a response, or the exception the
    transport raises. *)
Variable network : trace -> res Response.

(** [requests.get(url, cookies=..., headers=...)] *)
Definition requests_get (url : string) (cookies headers : dict string)
    : M trace Response :=
  fun tr => let tr' := tr ++ [HttpGet url cookies headers] in (network tr', tr').

(** [requests.post(url, data, cookies=..., headers=...)] *)
Definition requests_post (url : string) (data : dict json)
    (cookies headers : dict string) : M trace Response :=
  fun tr => let tr' := tr ++ [HttpPost url data cookies headers] in (network tr', tr').

(** [LGTMSite._make_lgtm_get] *)
Definition _make_lgtm_get (self : LGTMSite) (url : string) : M trace json :=
  r <~ _resilient_request (requests_get url (_cookies self) (_headers self)) 0 ;;
  response_json r.

Definition getMyProjects_url (self : LGTMSite) : string :=
  "https://lgtm.com/internal_api/v0.2/getMyProjects?apiVersion=" +:+ api_version self.

(** [LGTMSite.get_my_projects] *)
Definition get_my_projects (self : LGTMSite) : M trace json :=
  data <~ _make_lgtm_get self (getMyProjects_url self) ;;
  status <~ lift (py_getitem data "status") ;;
  if py_eq_str status "success" then lift (py_getitem data "data")
  else raise (LGTMRequestException
                ("LGTM GET request failed with response: " +:+ py_str data) None).

(** [LGTMSite.get_my_projects_under_org]; the [for] statement of
    [org_to_ids] is what asks its argument for its elements. *)
Definition get_my_projects_under_org (self : LGTMSite) (org : string)
    : M trace (list SimpleProject) :=
  projects <~ get_my_projects self ;;
  records <~ lift (py_iter projects) ;;
  projects_sorted <~ lift (org_to_ids records) ;;
  extract_project_under_org org projects_sorted.

(** [LGTMSite._make_lgtm_post]; its parameter [retry_count] is never
    read and is left out. *)
Definition _make_lgtm_post (self : LGTMSite) (url : string) (data : dict json)
    : M trace json :=
  let api_data := [("apiVersion"%string, JStr (api_version self))] in
  let full_data := dict_merge api_data data in
  print (py_str (JObj data)) ;;;
  r <~ _resilient_request
         (requests_post url full_data (_cookies self) (_headers self)) 0 ;;
  data_returned <~ try_except (response_json r) (fun e =>
      match e with
      | ValueError _ =>
          Some (raise (LGTMRequestException
                         ("Failed to parse JSON. Response was: " +:+ text r)
                         (Some e)))
      | _ => None
      end) ;;
  print (py_str data_returned) ;;;
  status <~ lift (py_getitem data_returned "status") ;;
  if py_eq_str status "success" then
    has_data <~ lift (py_contains "data" data_returned) ;;
    if has_data : bool then lift (py_getitem data_returned "data")
    else ret (JObj [])
  else raise (LGTMRequestException
                ("LGTM POST request failed with response: " +:+ py_str data_returned)
                None).

Definition updateProjectSelection_url : string :=
  "https://lgtm.com/internal_api/v0.2/updateProjectSelection".

(** Line 83: the list in LGTM's own form-value syntax. *)
Definition list_serialized (lgtm_project_ids : list json) : string :=
  join ", " (map (fun elem => dquote +:+ py_str elem +:+ dquote) lgtm_project_ids).

(** [LGTMSite.load_into_project_list] *)
Definition load_into_project_list (self : LGTMSite) (into_project : Z)
    (lgtm_project_ids : list json) : M trace unit :=
  let data :=
    [("projectSelectionId"%string, JInt into_project);
     ("addedProjects"%string, JStr ("[" +:+ list_serialized lgtm_project_ids +:+ "]"));
     ("removedProjects"%string, JStr "[]")] in
  _make_lgtm_post self updateProjectSelection_url data ;;;
  ret tt.

Definition rebuildProtoproject_url : string :=
  "https://lgtm.com/internal_api/v0.2/rebuildProtoproject".

(** The form data of a rebuild: [{**make_post_data(), 'config': ''}]. *)
Definition rebuild_data (simple_project : SimpleProject) : dict json :=
  dict_merge (make_post_data simple_project) [("config"%string, JStr EmptyString)].

(** [LGTMSite.force_rebuild_project] *)
Definition force_rebuild_project (self : LGTMSite) (simple_project : SimpleProject)
    : M trace unit :=
  try_except
    (_make_lgtm_post self rebuildProtoproject_url (rebuild_data simple_project) ;;;
     ret tt)
    (fun e =>
       if is_LGTMRequestException e then
         Some (print ("Failed rebuilding project. This may be because it is already being built. `"
                      +:+ SimpleProject_repr simple_project +:+ "`"))
       else None).

(** The two nested loops of [force_rebuild_all_proto_projects] (lines
    93-99) over a grouping already at hand. *)
Definition rebuild_loop (self : LGTMSite)
    (org_to_projects : dict (list SimpleProject)) : M trace unit :=
  for_each (map fst org_to_projects) (fun org =>
    match dict_get org org_to_projects with
    | None => raise (KeyError (JStr org))
    | Some projects =>
        for_each projects (fun project =>
          if negb (is_protoproject project) then ret tt
          else time_sleep 1 ;;; force_rebuild_project self project)
    end).

(** [LGTMSite.force_rebuild_all_proto_projects] *)
Definition force_rebuild_all_proto_projects (self : LGTMSite) : M trace unit :=
  projects <~ get_my_projects self ;;
  records <~ lift (py_iter projects) ;;
  org_to_projects <~ lift (org_to_ids records) ;;
  rebuild_loop self org_to_projects.

(** [LGTMSite.add_org_to_project_list_by_list_name]: its body is [pass]. *)
Definition add_org_to_project_list_by_list_name (self : LGTMSite)
    (org project_name : string) : M trace unit :=
  ret tt.

(** ** The rest of the session client *)

(** [int(v)] of a [str] or of a [float]: taken as given. *)
Variable int_of : json -> res Z.

(** [int(v)] *)
Definition py_int (v : json) : res Z :=
  match v with
  | JInt n => Ret n
  | JBool b => Ret (if b then 1 else 0)
  | JStr _ | JFloat _ => int_of v
  | JNull | JList _ | JObj _ => Raise TypeError
  end.

Definition followProject_url : string :=
  "https://lgtm.com/internal_api/v0.2/followProject".

(** [LGTMSite.follow_repository] *)
Definition follow_repository (self : LGTMSite) (repository_url : string)
    : M trace unit :=
  let data :=
    [("url"%string, JStr repository_url);
     ("apiVersion"%string, JStr (api_version self))] in
  _make_lgtm_post self followProject_url data ;;;
  ret tt.

Definition unfollowProject_url : string :=
  "https://lgtm.com/internal_api/v0.2/unfollowProject".

Definition unfollowProtoproject_url : string :=
  "https://lgtm.com/internal_api/v0.2/unfollowProtoproject".

(** [LGTMSite.unfollow_repository_by_id] *)
Definition unfollow_repository_by_id (self : LGTMSite) (project_id : string)
    : M trace unit :=
  let data := [("project_key"%string, JStr project_id)] in
  _make_lgtm_post self unfollowProject_url data ;;;
  ret tt.

(** [LGTMSite.unfollow_repository] *)
Definition unfollow_repository (self : LGTMSite) (simple_project : SimpleProject)
    : M trace unit :=
  let url :=
    if negb (is_protoproject simple_project) then unfollowProject_url
    else unfollowProtoproject_url in
  let data := make_post_data simple_project in
  _make_lgtm_post self url data ;;;
  ret tt.



Definition getUsedProjectSelections_url : string :=
  "https://lgtm.com/internal_api/v0.2/getUsedProjectSelections".

(** [LGTMSite.get_project_lists] *)
Definition get_project_lists (self : LGTMSite) : M trace json :=
  _make_lgtm_post self getUsedProjectSelections_url [].

(** The loop of [get_project_list_by_name] (lines 148-151): it returns
    from inside at the first name that matches. *)
Fixpoint find_project_list {St : Type} (list_name : string)
    (project_lists : list json) : M St (option Z) :=
  match project_lists with
  | [] => ret None
  | project_list :: rest =>
      name <~ lift (py_getitem project_list "name") ;;
      if py_eq_str name list_name then
        k <~ lift (py_getitem project_list "key") ;;
        n <~ lift (py_int k) ;;
        ret (Some n)
      else find_project_list list_name rest
  end.

(** [LGTMSite.get_project_list_by_name] *)
Definition get_project_list_by_name (self : LGTMSite) (list_name : string)
    : M trace (option Z) :=
  project_lists <~ get_project_lists self ;;
  items <~ lift (py_iter project_lists) ;;
  find_project_list list_name items.

Definition createProjectSelection_url : string :=
  "https://lgtm.com/internal_api/v0.2/createProjectSelection".

(** [LGTMSite.create_project_list] *)
Definition create_project_list (self : LGTMSite) (name : string) : M trace Z :=
  let data := [("name"%string, JStr name)] in
  response <~ _make_lgtm_post self createProjectSelection_url data ;;
  k <~ lift (py_getitem response "key") ;;
  lift (py_int k).

(** [LGTMSite.get_or_create_project_list] *)
Definition get_or_create_project_list (self : LGTMSite) (list_name : string)
    : M trace Z :=
  project_list_id <~ get_project_list_by_name self list_name ;;
  match project_list_id with
  | Some id =>
      print ("Found Project List with name: " +:+ list_name) ;;;
      ret id
  | None =>
      print ("Creating Project List with name: " +:+ list_name) ;;;
      create_project_list self list_name
  end.

(** The loop of [add_org_to_project_list_by_list_key] (lines 177-179),
    [ids] being the list it appends to. *)
Fixpoint collect_ids (projects_under_org : list SimpleProject) (ids : list json)
    : M trace (list json) :=
  match projects_under_org with
  | [] => ret ids
  | project :: rest =>
      print ("Adding `" +:+ py_str (display_name project)
             +:+ "` project to project list") ;;;
      collect_ids rest (ids ++ [key project])
  end.

(** [LGTMSite.add_org_to_project_list_by_list_key] *)
Definition add_org_to_project_list_by_list_key (self : LGTMSite) (org : string)
    (project_list_key : Z) : M trace unit :=
  projects_under_org <~ get_my_projects_under_org self org ;;
  ids <~ collect_ids projects_under_org [] ;;
  load_into_project_list self project_list_key ids.

Definition retrieve_project_url (gh_project_path : string) : string :=
  "https://lgtm.com/api/v1.0/projects/g/" +:+ gh_project_path.

(** [LGTMSite.retrieve_project]: [requests.get(url)] is given neither
    cookies nor headers. *)
Definition retrieve_project (gh_project_path : string) : M trace json :=
  r <~ _resilient_request (requests_get (retrieve_project_url gh_project_path) [] []) 0 ;;
  response_json r.

(** [LGTMSite.retrieve_project_id] *)
Definition retrieve_project_id (gh_project_path : string) : M trace (option Z) :=
  data_returned <~ retrieve_project gh_project_path ;;
  has_id <~ lift (py_contains "id" data_returned) ;;
  if has_id : bool then
    id <~ lift (py_getitem data_returned "id") ;;
    n <~ lift (py_int id) ;;
    ret (Some n)
  else ret None.

End LGTM.

(** ** The normaliser as the specification words it *)

Definition supported_host : string := "https://github.com/".
Definition supported_provider : string := "github_apps".

(** A record the normaliser leaves out: a protoproject whose clone URL
    is a text without the supported host in it, or (with no
    [protoproject] key) a realProject whose first element carries a
    provider tag other than the supported one. *)
Definition unsupported (project : json) : bool :=
  match project with
  | JObj o =>
      match dict_get "protoproject" o with
      | Some (JObj p) =>
          match dict_get "cloneUrl" p with
          | Some (JStr url) => negb (is_substring supported_host url)
          | _ => false
          end
      | Some _ => false
      | None =>
          match dict_get "realProject" o with
          | Some (JList (JObj p :: _)) =>
              match dict_get "repoProvider" p with
              | Some tag => negb (py_eq_str tag supported_provider)
              | None => false
              end
          | _ => false
          end
      end
  | _ => false
  end.

(** A record with neither key: both [in] tests answer [False]. *)
Definition lacks_both_keys (project : json) : bool :=
  match py_contains "protoproject" project, py_contains "realProject" project with
  | Ret false, Ret false => true
  | _, _ => false
  end.

(** A record of one of the two shapes of the data model, with the fields
    that shape is said to have: a clone URL, a display name and a key
    under [protoproject]; or a slug, a display name, a key and a provider
    tag in the first element of the list under [realProject]. *)
Definition recognized_shape (project : json) : bool :=
  match project with
  | JObj o =>
      match dict_get "protoproject" o with
      | Some (JObj p) =>
          match dict_get "cloneUrl" p, dict_get "displayName" p, dict_get "key" p with
          | Some (JStr _), Some (JStr _), Some _ => true
          | _, _, _ => false
          end
      | Some _ => false
      | None =>
          match dict_get "realProject" o with
          | Some (JList (JObj p :: _)) =>
              match dict_get "slug" p, dict_get "displayName" p,
                    dict_get "key" p, dict_get "repoProvider" p with
              | Some (JStr _), Some _, Some _, Some _ => true
              | _, _, _, _ => false
              end
          | _ => false
          end
      end
  | _ => false
  end.

(** The slug of a realProject that is kept names an organisation: it has
    a segment of index 1.  (Nothing is asked of other records.) *)
Definition slug_names_org (project : json) : bool :=
  match project with
  | JObj o =>
      match dict_get "protoproject" o, dict_get "realProject" o with
      | None, Some (JList (JObj p :: _)) =>
          match dict_get "slug" p, dict_get "repoProvider" p with
          | Some (JStr slug), Some tag =>
              negb (py_eq_str tag supported_provider)
              || bool_decide (2 <= List.length (split_on slash slug))%nat
          | _, _ => true
          end
      | _, _ => true
      end
  | _ => true
  end.

(** The normalised project of a record and the organisation it goes
    under; [None] for a record that is left out. *)
Definition normalized (project : json) : option (string * SimpleProject) :=
  match project with
  | JObj o =>
      match dict_get "protoproject" o with
      | Some (JObj p) =>
          match dict_get "cloneUrl" p, dict_get "displayName" p, dict_get "key" p with
          | Some (JStr url), Some (JStr name), Some k =>
              if is_substring supported_host url then
                Some (hd EmptyString (split_on slash name),
                      {| display_name := JStr name; key := k; is_protoproject := true |})
              else None
          | _, _, _ => None
          end
      | Some _ => None
      | None =>
          match dict_get "realProject" o with
          | Some (JList (JObj p :: _)) =>
              match dict_get "slug" p, dict_get "displayName" p,
                    dict_get "key" p, dict_get "repoProvider" p with
              | Some (JStr slug), Some name, Some k, Some tag =>
                  if py_eq_str tag supported_provider then
                    match split_on slash slug !! 1%nat with
                    | Some org =>
                        Some (org, {| display_name := name; key := k;
                                      is_protoproject := false |})
                    | None => None
                    end
                  else None
              | _, _, _, _ => None
              end
          | _ => None
          end
      end
  | _ => None
  end.

(** The organisations of a list of filed projects, each once, in the
    order in which they first appear. *)
Fixpoint first_appearances (orgs : list string) : list string :=
  match orgs with
  | [] => []
  | org :: rest => org :: filter (fun o => o <> org) (first_appearances rest)
  end.

(** The projects filed under [org], in the order of the input, each as
    often as it occurs. *)
Definition projects_of (org : string) (filed : list (string * SimpleProject))
    : list SimpleProject :=
  (filter (fun op => op.1 = org) filed).*2.

(** The grouping the specification describes. *)
Definition grouped (filed : list (string * SimpleProject))
    : dict (list SimpleProject) :=
  map (fun org => (org, projects_of org filed)) (first_appearances (filed.*1)).

(** The locals of [org_to_ids] that stand for a list of filed projects:
    the organisations in order of first appearance, the list object of
    the [i]-th of them at address [i]. *)
Definition locals_of (filed : list (string * SimpleProject)) : locals :=
  let orgs := first_appearances (filed.*1) in
  {| org_to_ids_var := zip orgs (seq 0 (List.length orgs));
     heap := map (fun org => projects_of org filed) orgs |}.

(** ** Reading traces and answers *)

Definition is_request (e : event) : bool :=
  match e with
  | HttpGet _ _ _ | HttpPost _ _ _ _ => true
  | Printed _ | Slept _ => false
  end.

(** The HTTP requests of a trace, in order. *)
Definition requests_of (tr : trace) : list event := List.filter is_request tr.

(** An answer that can fail a POST only as a request failure: the
    transport raises nothing but [SSLError], and a body that is JSON is
    an object with a [status]. *)
Definition calm (answer : res Response) : bool :=
  match answer with
  | Raise e => is_SSLError e
  | Ret r =>
      match json_body r with
      | None => true
      | Some (JObj o) => dict_contains "status" o
      | Some _ => false
      end
  end.

(** The projects of a grouping in the order in which the loops of
    [force_rebuild_all_proto_projects] come to them. *)
Definition all_projects (org_to_projects : dict (list SimpleProject))
    : list SimpleProject :=
  List.concat (map (fun org => default [] (dict_get org org_to_projects))
              (org_to_projects.*1)).

(** The request that rebuilds a protoproject. *)
Definition rebuild_request (self : LGTMSite) (p : SimpleProject) : event :=
  HttpPost "https://lgtm.com/internal_api/v0.2/rebuildProtoproject"
    [("apiVersion"%string, JStr (api_version self));
     ("protoproject_key"%string, key p);
     ("config"%string, JStr EmptyString)]
    (_cookies self) (_headers self).

(** The request that unfollows a project: each kind at its own
    endpoint, under its own key name. *)
Definition unfollow_request (self : LGTMSite) (p : SimpleProject) : event :=
  if is_protoproject p then
    HttpPost "https://lgtm.com/internal_api/v0.2/unfollowProtoproject"
      [("apiVersion"%string, JStr (api_version self));
       ("protoproject_key"%string, key p)]
      (_cookies self) (_headers self)
  else
    HttpPost "https://lgtm.com/internal_api/v0.2/unfollowProject"
      [("apiVersion"%string, JStr (api_version self));
       ("project_key"%string, key p)]
      (_cookies self) (_headers self).


(** An entry of the answer of [getUsedProjectSelections] whose name is
    there and is not [list_name]. *)
Definition other_name (list_name : string) (project_list : json) : bool :=
  match project_list with
  | JObj o =>
      match dict_get "name" o with
      | Some name => negb (py_eq_str name list_name)
      | None => false
      end
  | _ => false
  end.

(** ** Sample inputs *)

(** [s] between double quotes. *)
Definition quoted (s : string) : string := dquote +:+ s +:+ dquote.

(** The body [{"status": "success"}] and what it parses to. *)
Definition sample_response : Response :=
  {| text := "{" +:+ quoted "status" +:+ ": " +:+ quoted "success" +:+ "}";
     json_body := Some (JObj [("status"%string, JStr "success")]) |}.

(** The body [{"status": "error"}] and what it parses to. *)
Definition error_response : Response :=
  {| text := "{" +:+ quoted "status" +:+ ": " +:+ quoted "error" +:+ "}";
     json_body := Some (JObj [("status"%string, JStr "error")]) |}.

(** A thunk over a call counter whose first [n] calls fail in the SSL
    layer and whose later calls succeed. *)
Definition flaky_thunk (n : nat) : M nat Response :=
  fun calls =>
    (if bool_decide (calls < n)%nat then Raise (SSLError "handshake failure")
     else Ret sample_response,
     S calls).

(** A thunk that times out on every call. *)
Definition timeout_thunk : M nat Response :=
  fun calls => (Raise (OtherError "ConnectTimeout" "timed out"), S calls).

(** [repr] replaced by a placeholder: no sample depends on it. *)
Definition sample_repr (v : json) : string := "<repr>".

(** The two records of the end-to-end scenario. *)
Definition scenario_proto : json :=
  JObj [("protoproject"%string,
         JObj [("cloneUrl"%string, JStr "https://github.com/orgA/x");
               ("displayName"%string, JStr "orgA/x");
               ("key"%string, JStr "p1")])].

Definition scenario_real : json :=
  JObj [("realProject"%string,
         JList [JObj [("slug"%string, JStr "gh/orgB/y");
                      ("displayName"%string, JStr "orgB/y");
                      ("key"%string, JStr "p2");
                      ("repoProvider"%string, JStr "github_apps")]])].

(** The normalised project of [scenario_proto]. *)
Definition scenario_project : SimpleProject :=
  {| display_name := JStr "orgA/x"; key := JStr "p1"; is_protoproject := true |}.

(** A second protoproject of [orgA]. *)
Definition second_proto : json :=
  JObj [("protoproject"%string,
         JObj [("cloneUrl"%string, JStr "https://github.com/orgA/w");
               ("displayName"%string, JStr "orgA/w");
               ("key"%string, JStr "p3")])].

(** Records of the two shapes hosted elsewhere. *)
Definition bitbucket_proto : json :=
  JObj [("protoproject"%string,
         JObj [("cloneUrl"%string, JStr "https://bitbucket.org/orgC/z");
               ("displayName"%string, JStr "orgC/z");
               ("key"%string, JStr "p4")])].

Definition bitbucket_real : json :=
  JObj [("realProject"%string,
         JList [JObj [("slug"%string, JStr "b/orgC/v");
                      ("displayName"%string, JStr "orgC/v");
                      ("key"%string, JStr "p5");
                      ("repoProvider"%string, JStr "bitbucket")]])].

(** A realProject with every field of its shape whose slug has no [/]. *)
Definition slugless_real : json :=
  JObj [("realProject"%string,
         JList [JObj [("slug"%string, JStr "orgB");
                      ("displayName"%string, JStr "orgB/y");
                      ("key"%string, JStr "p2");
                      ("repoProvider"%string, JStr "github_apps")]])].

(** A record of neither shape. *)
Definition shapeless : json :=
  JObj [("project"%string, JObj [("key"%string, JStr "p6")])].

Definition sample_site : LGTMSite :=
  {| nonce := "n0"; long_session := "long"; short_session := "short";
     api_version := "5b0cb1a" |}.

(** A remote end that answers every request with a gateway's error
    page. *)
Definition html_network : trace -> res Response :=
  fun _ => Ret {| text := "<html>502 Bad Gateway</html>"; json_body := None |}.

(** A listing of three projects; the text of its body, which no path
    taken here reads, is left out. *)
Definition listing_response : Response :=
  {| text := EmptyString;
     json_body :=
       Some (JObj [("status"%string, JStr "success");
                   ("data"%string,
                    JList [scenario_proto; scenario_real; second_proto])]) |}.

(** A remote end that lists three projects to the first request, refuses
    the second and accepts the rest. *)
Definition batch_network : trace -> res Response :=
  fun tr =>
    match List.length (requests_of tr) with
    | 1%nat => Ret listing_response
    | 2%nat => Ret error_response
    | _ => Ret sample_response
    end.

(** [int] of a text that is no number, for the samples. *)
Definition sample_int_of (v : json) : res Z :=
  Raise (ValueError "invalid literal for int()").

(** A remote end that answers every request with success and no data. *)
Definition success_network : trace -> res Response :=
  fun _ => Ret sample_response.

(** Project lists as [getUsedProjectSelections] gives them, one name
    twice. *)
Definition sample_lists : list json :=
  [JObj [("name"%string, JStr "alpha"); ("key"%string, JInt 11)];
   JObj [("name"%string, JStr "beta"); ("key"%string, JInt 12)];
   JObj [("name"%string, JStr "alpha"); ("key"%string, JInt 13)]].

(** A remote end that is never reached: every send fails in the SSL
    layer. *)
Definition ssl_network : trace -> res Response :=
  fun _ => Raise (SSLError "handshake failure").

(** A remote end that answers every request with the three lists. *)
Definition lists_network : trace -> res Response :=
  fun _ => Ret {| text := EmptyString;
                  json_body := Some (JObj [("status"%string, JStr "success");
                                           ("data"%string, JList sample_lists)]) |}.

(** A remote end that answers every request with one project's
    description, its [id] being 42. *)
Definition id_network : trace -> res Response :=
  fun _ => Ret {| text := EmptyString;
                  json_body := Some (JObj [("id"%string, JInt 42);
                                           ("name"%string, JStr "x")]) |}.

(** A remote end that answers every request with a new list's key. *)
Definition created_network : trace -> res Response :=
  fun _ => Ret {| text := EmptyString;
                  json_body := Some (JObj [("status"%string, JStr "success");
                                           ("data"%string,
                                            JObj [("key"%string, JInt 7)])]) |}.

(* ================================================================== *)
(** * Theorems *)
(* ================================================================== *)

(** ** The resilient request executor *)

Section Executor.

Context {St : Type} (thunk : M St Response).

(** The source's recursion, read off the definition by fuel. *)
Lemma _resilient_request_unfold (retry_count : Z) (s : St) :
  _resilient_request thunk retry_count s =
  try_except thunk (fun e =>
    if is_SSLError e then
      Some (if retry_count <? 4 then _resilient_request thunk (retry_count + 1)
            else raise (LGTMRequestException "SSL Error" (Some e)))
    else None) s.
Proof.
  unfold _resilient_request.
  destruct (Z.to_nat (4 - retry_count)) as [|fuel] eqn:Hfuel; simpl;
    unfold try_except; destruct (thunk s) as [[r|e] s']; try reflexivity;
    destruct (is_SSLError e); try reflexivity;
    destruct (retry_count <? 4) eqn:Hlt; try reflexivity.
  - apply Z.ltb_lt in Hlt. lia.
  - apply Z.ltb_lt in Hlt.
    replace (Z.to_nat (4 - (retry_count + 1))) with fuel by lia. reflexivity.
Qed.

Lemma resilient_returns retry_count s r s' :
  thunk s = (Ret r, s') -> _resilient_request thunk retry_count s = (Ret r, s').
Proof.
  intros H. rewrite _resilient_request_unfold. unfold try_except. now rewrite H.
Qed.

Lemma resilient_propagates retry_count s e s' :
  thunk s = (Raise e, s') -> is_SSLError e = false ->
  _resilient_request thunk retry_count s = (Raise e, s').
Proof.
  intros H He. rewrite _resilient_request_unfold. unfold try_except.
  now rewrite H, He.
Qed.

Lemma resilient_retries retry_count s info s' :
  thunk s = (Raise (SSLError info), s') -> retry_count < 4 ->
  _resilient_request thunk retry_count s =
  _resilient_request thunk (retry_count + 1) s'.
Proof.
  intros H Hlt. rewrite _resilient_request_unfold. unfold try_except.
  rewrite H. simpl. apply Z.ltb_lt in Hlt. now rewrite Hlt.
Qed.

Lemma resilient_gives_up retry_count s info s' :
  thunk s = (Raise (SSLError info), s') -> 4 <= retry_count ->
  _resilient_request thunk retry_count s =
  (Raise (LGTMRequestException "SSL Error" (Some (SSLError info))), s').
Proof.
  intros H Hge. rewrite _resilient_request_unfold. unfold try_except.
  rewrite H. simpl. apply Z.ltb_ge in Hge. now rewrite Hge.
Qed.

End Executor.

Section ExecutorRuns.

Context {St : Type} (thunk : M St Response).

Lemma counted_step (s : St) (c : nat) :
  counted thunk (s, c) = ((thunk s).1, ((thunk s).2, S c)).
Proof. unfold counted. simpl. now destruct (thunk s). Qed.

Lemma counted_state_before (k : nat) : forall (s : St) (c : nat),
  state_before (counted thunk) k (s, c) = (state_before thunk k s, (c + k)%nat).
Proof.
  induction k as [|k IH]; intros s c; simpl.
  - f_equal. lia.
  - rewrite counted_step. simpl. rewrite IH. f_equal. lia.
Qed.

Lemma counted_outcome (k : nat) (s : St) (c : nat) :
  outcome_of_attempt (counted thunk) k (s, c) = outcome_of_attempt thunk k s.
Proof.
  unfold outcome_of_attempt. rewrite counted_state_before, counted_step.
  reflexivity.
Qed.

Lemma state_before_S {A : Type} (t : M St A) (k : nat) : forall s : St,
  state_before t (S k) s = (t (state_before t k s)).2.
Proof.
  induction k as [|k IH]; intros s; [reflexivity|].
  change (state_before t (S (S k)) s) with (state_before t (S k) (t s).2).
  now rewrite IH.
Qed.

End ExecutorRuns.

(** Counting the calls changes neither the result nor the state. *)
Lemma counted_erasure {St : Type} (thunk : M St Response) (fuel : nat) :
  forall (retry_count : Z) (s : St) (c : nat),
    exists c' : nat,
      resilient_loop fuel (counted thunk) retry_count (s, c) =
      ((resilient_loop fuel thunk retry_count s).1,
       ((resilient_loop fuel thunk retry_count s).2, c')).
Proof.
  induction fuel as [|fuel IH]; intros rc s c; cbn [resilient_loop];
    unfold try_except; rewrite counted_step;
    destruct (thunk s) as [[r|e] s']; cbn [fst snd]; eauto;
    destruct (is_SSLError e); eauto;
    destruct (rc <? 4); eauto.
Qed.

Section ExecutorCap.

Context {St : Type}.

(** After [k] SSL failures under the cap the executor is where a call
    with [k] more retries on the count would start. *)
Lemma resilient_skips_failures (thunk : M St Response) (k : nat) :
  forall (retry_count : Z) (s : St),
    retry_count + Z.of_nat k <= 4 ->
    (forall j, (j < k)%nat -> fails_in_ssl (outcome_of_attempt thunk j s) = true) ->
    _resilient_request thunk retry_count s =
    _resilient_request thunk (retry_count + Z.of_nat k) (state_before thunk k s).
Proof.
  induction k as [|k IH]; intros rc s Hcap Hfail.
  - simpl. now replace (rc + Z.of_nat 0) with rc by lia.
  - pose proof (Hfail 0%nat ltac:(lia)) as H0.
    unfold outcome_of_attempt in H0. simpl in H0 |- *.
    destruct (thunk s) as [[r|e] s'] eqn:Hs; simpl in H0; try discriminate.
    destruct e; try discriminate.
    rewrite (resilient_retries thunk rc s info s' Hs) by lia.
    rewrite (IH (rc + 1) s') by
      (try lia; intros j Hj; specialize (Hfail (S j) ltac:(lia));
       unfold outcome_of_attempt in *; simpl in Hfail; now rewrite Hs in Hfail).
    f_equal. lia.
Qed.

(** Whatever the thunk does, a call with [n] retries left calls it at
    most [n + 1] times. *)
Lemma attempts_bounded (thunk : M St Response) (n : nat) :
  forall (retry_count : Z) (s : St) (c : nat),
    retry_count = 4 - Z.of_nat n ->
    ((_resilient_request (counted thunk) retry_count (s, c)).2.2 <= c + S n)%nat.
Proof.
  induction n as [|n IH]; intros rc s c Hrc.
  - destruct (thunk s) as [[r|e] s'] eqn:Hs.
    + rewrite (resilient_returns _ rc (s, c) r (s', S c)); simpl; [lia|].
      rewrite counted_step, Hs. reflexivity.
    + destruct (is_SSLError e) eqn:He.
      * destruct e; try discriminate.
        rewrite (resilient_gives_up _ rc (s, c) info (s', S c)); simpl; [lia| |lia].
        rewrite counted_step, Hs. reflexivity.
      * rewrite (resilient_propagates _ rc (s, c) e (s', S c)); simpl; [lia| |done].
        rewrite counted_step, Hs. reflexivity.
  - destruct (thunk s) as [[r|e] s'] eqn:Hs.
    + rewrite (resilient_returns _ rc (s, c) r (s', S c)); simpl; [lia|].
      rewrite counted_step, Hs. reflexivity.
    + destruct (is_SSLError e) eqn:He.
      * destruct e; try discriminate.
        rewrite (resilient_retries _ rc (s, c) info (s', S c)); [| |lia].
        -- specialize (IH (rc + 1) s' (S c) ltac:(lia)). lia.
        -- rewrite counted_step, Hs. reflexivity.
      * rewrite (resilient_propagates _ rc (s, c) e (s', S c)); simpl; [lia| |done].
        rewrite counted_step, Hs. reflexivity.
Qed.


(** Five SSL failures in a row from a fresh call: the executor gives up
    with the fifth one as the cause. *)
Lemma resilient_exhausts (thunk : M St Response) (s : St) :
  (forall j, (j < 5)%nat -> fails_in_ssl (outcome_of_attempt thunk j s) = true) ->
  exists e, outcome_of_attempt thunk 4 s = Raise e
    /\ _resilient_request thunk 0 s =
       (Raise (LGTMRequestException "SSL Error" (Some e)), state_before thunk 5 s).
Proof.
  intros Hfail.
  rewrite (resilient_skips_failures thunk 4 0 s) by (try lia; intros; apply Hfail; lia).
  pose proof (Hfail 4%nat ltac:(lia)) as H4.
  rewrite (state_before_S thunk 4).
  unfold outcome_of_attempt in H4 |- *.
  destruct (thunk (state_before thunk 4 s)) as [[r|e] s'] eqn:Hs;
    simpl in H4; try discriminate.
  destruct e; try discriminate. exists (SSLError info). split; [done|].
  now rewrite (resilient_gives_up thunk _ _ info s' Hs) by (simpl; lia).
Qed.

(** The first call that does not fail in the SSL layer, if it returns,
    ends the run. *)
Lemma resilient_succeeds_at (thunk : M St Response) (s : St) (k : nat) (r : Response) :
  (k < 5)%nat ->
  (forall j, (j < k)%nat -> fails_in_ssl (outcome_of_attempt thunk j s) = true) ->
  outcome_of_attempt thunk k s = Ret r ->
  _resilient_request thunk 0 s = (Ret r, state_before thunk (S k) s).
Proof.
  intros Hk Hfail Hret.
  rewrite (resilient_skips_failures thunk k 0 s) by (try lia; done).
  rewrite state_before_S. unfold outcome_of_attempt in Hret.
  destruct (thunk (state_before thunk k s)) as [r' s'] eqn:Hs.
  simpl in Hret. subst r'. now apply resilient_returns.
Qed.

End ExecutorCap.

(** C1.  Called with [retry_count = 0], the executor calls the thunk at
    most five times.  If the first five calls all raise [SSLError], it
    makes exactly those five and raises [LGTMRequestException] with the
    fifth call's [SSLError] as its cause.  If call number [k + 1 <= 5] is
    the first that does not raise [SSLError] and returns [r], the
    executor returns [r] after exactly [k + 1] calls. *)
Theorem resilient_request_retry_cap {St : Type} (thunk : M St Response) (s : St) :
  (attempts thunk 0 s <= 5)%nat
  /\ ((forall j, (j < 5)%nat -> fails_in_ssl (outcome_of_attempt thunk j s) = true) ->
      attempts thunk 0 s = 5%nat
      /\ exists e, outcome_of_attempt thunk 4 s = Raise e
          /\ _resilient_request thunk 0 s =
             (Raise (LGTMRequestException "SSL Error" (Some e)),
              state_before thunk 5 s))
  /\ (forall (k : nat) (r : Response),
        (k < 5)%nat ->
        (forall j, (j < k)%nat -> fails_in_ssl (outcome_of_attempt thunk j s) = true) ->
        outcome_of_attempt thunk k s = Ret r ->
        _resilient_request thunk 0 s = (Ret r, state_before thunk (S k) s)
        /\ attempts thunk 0 s = S k).
Proof.
  split; [|split].
  - unfold attempts.
    pose proof (attempts_bounded thunk 4 0 s 0%nat ltac:(lia)). lia.
  - intros Hfail. split; [|now apply resilient_exhausts].
    unfold attempts.
    destruct (resilient_exhausts (counted thunk) (s, 0%nat)) as (e & _ & Hrun).
    { intros j Hj. rewrite counted_outcome. now apply Hfail. }
    rewrite Hrun, counted_state_before. reflexivity.
  - intros k r Hk Hfail Hret. split; [now apply resilient_succeeds_at|].
    unfold attempts.
    rewrite (resilient_succeeds_at (counted thunk) (s, 0%nat) k r Hk).
    + rewrite counted_state_before. reflexivity.
    + intros j Hj. rewrite counted_outcome. now apply Hfail.
    + now rewrite counted_outcome.
Qed.

(** C5.  An exception of any class but [SSLError] leaves the executor
    as the thunk raised it, after that one call, whatever the retry
    count. *)
Theorem resilient_request_propagates_other {St : Type} (thunk : M St Response)
    (retry_count : Z) (s s' : St) (e : exn) :
  thunk s = (Raise e, s') ->
  is_SSLError e = false ->
  _resilient_request thunk retry_count s = (Raise e, s')
  /\ attempts thunk retry_count s = 1%nat.
Proof.
  intros Hs He. split; [now apply resilient_propagates|].
  unfold attempts.
  rewrite (resilient_propagates (counted thunk) retry_count (s, 0%nat) e (s', 1%nat));
    [reflexivity| |exact He].
  now rewrite counted_step, Hs.
Qed.

(** On the sample thunks: five failures exhaust the executor, a success
    on the third call ends it there. *)
Lemma resilient_request_retry_cap_witness :
  (attempts (flaky_thunk 9) 0 0%nat = 5%nat
   /\ (_resilient_request (flaky_thunk 9) 0 0%nat).1 =
      Raise (LGTMRequestException "SSL Error" (Some (SSLError "handshake failure"))))
  /\ (_resilient_request (flaky_thunk 2) 0 0%nat = (Ret sample_response, 3%nat)
      /\ attempts (flaky_thunk 2) 0 0%nat = 3%nat).
Proof.
  split.
  - destruct (resilient_request_retry_cap (flaky_thunk 9) 0%nat) as (_ & Hall & _).
    destruct Hall as (Hn & e & He & Hrun).
    { intros j Hj. do 5 (destruct j as [|j]; [reflexivity|]). lia. }
    split; [exact Hn|]. rewrite Hrun. simpl.
    vm_compute in He. now inversion He.
  - destruct (resilient_request_retry_cap (flaky_thunk 2) 0%nat) as (_ & _ & Hok).
    apply (Hok 2%nat sample_response); [lia| |reflexivity].
    intros j Hj. do 2 (destruct j as [|j]; [reflexivity|]). lia.
Defined.

Lemma resilient_request_propagates_other_witness :
  _resilient_request timeout_thunk 0 0%nat =
    (Raise (OtherError "ConnectTimeout" "timed out"), 1%nat)
  /\ attempts timeout_thunk 0 0%nat = 1%nat.
Proof.
  apply (resilient_request_propagates_other timeout_thunk 0 0%nat 1%nat);
    reflexivity.
Defined.

(** ** The response normaliser *)

Section Dicts.

Context {V : Type}.

Lemma dict_get_zip_None (org : string) (orgs : list string) (vs : list V) :
  org ∉ orgs -> dict_get org (zip orgs vs) = None.
Proof.
  revert vs. induction orgs as [|o orgs IH]; intros vs Hnot; [reflexivity|].
  destruct vs as [|v vs]; [reflexivity|]. simpl.
  apply not_elem_of_cons in Hnot as [Hne Hnot].
  rewrite decide_False by congruence. now apply IH.
Qed.

Lemma dict_set_snoc (org : string) (v : V) (d : dict V) :
  org ∉ d.*1 -> dict_set org v d = d ++ [(org, v)].
Proof.
  induction d as [|[o w] d IH]; intros Hnot; [reflexivity|]. simpl in *.
  apply not_elem_of_cons in Hnot as [Hne Hnot].
  rewrite decide_False by congruence. now rewrite IH.
Qed.

End Dicts.

Lemma dict_get_zip_seq (org : string) (orgs : list string) :
  forall (i k : nat),
    NoDup orgs -> orgs !! i = Some org ->
    dict_get org (zip orgs (seq k (List.length orgs))) = Some (k + i)%nat.
Proof.
  induction orgs as [|o orgs IH]; intros i k Hnd Hi; [done|].
  apply NoDup_cons in Hnd as [Hnot Hnd]. simpl.
  destruct i as [|i]; simpl in Hi.
  - simplify_eq. rewrite decide_True by done. f_equal. lia.
  - rewrite decide_False.
    + rewrite (IH i (S k) Hnd Hi). f_equal. lia.
    + intros ->. apply Hnot. eapply list_elem_of_lookup_2. exact Hi.
Qed.

Lemma elem_of_first_appearances (x : string) (orgs : list string) :
  x ∈ first_appearances orgs <-> x ∈ orgs.
Proof.
  induction orgs as [|o orgs IH]; cbn [first_appearances]; [done|].
  rewrite !elem_of_cons, list_elem_of_filter, IH.
  destruct (decide (x = o)); tauto.
Qed.

Lemma NoDup_first_appearances (orgs : list string) :
  NoDup (first_appearances orgs).
Proof.
  induction orgs as [|o orgs IH]; simpl; [constructor|].
  apply NoDup_cons. split.
  - rewrite list_elem_of_filter. tauto.
  - now apply NoDup_filter.
Qed.

(** A new last element is a new organisation exactly when it was not
    seen before. *)
Lemma first_appearances_snoc (orgs : list string) (x : string) :
  first_appearances (orgs ++ [x]) =
  if decide (x ∈ orgs) then first_appearances orgs
  else first_appearances orgs ++ [x].
Proof.
  induction orgs as [|o orgs IH]; cbn [first_appearances app].
  - rewrite decide_False; [done|]. apply not_elem_of_nil.
  - rewrite IH. destruct (decide (x ∈ orgs)) as [Hin|Hnot].
    + rewrite decide_True; [done|]. now apply elem_of_cons; right.
    + rewrite filter_app. destruct (decide (x = o)) as [->|Hne].
      * rewrite decide_True by (apply elem_of_cons; left; reflexivity).
        rewrite filter_cons_False by (intros H; apply H; reflexivity).
        now rewrite filter_nil, app_nil_r.
      * rewrite decide_False by (rewrite elem_of_cons; tauto).
        now rewrite filter_cons_True by done.
Qed.

Lemma projects_of_snoc (o org : string) (p : SimpleProject)
    (filed : list (string * SimpleProject)) :
  projects_of o (filed ++ [(org, p)]) =
  projects_of o filed ++ (if decide (org = o) then [p] else []).
Proof.
  unfold projects_of. rewrite filter_app, fmap_app. f_equal.
  destruct (decide (org = o)) as [->|Hne].
  - now rewrite filter_cons_True by done.
  - now rewrite filter_cons_False by done.
Qed.

Lemma projects_of_absent (org : string) (filed : list (string * SimpleProject)) :
  org ∉ filed.*1 -> projects_of org filed = [].
Proof.
  unfold projects_of. induction filed as [|[o p] filed IH]; intros Hnot; [done|].
  simpl in Hnot. apply not_elem_of_cons in Hnot as [Hne Hnot].
  rewrite filter_cons_False by (simpl; congruence). now apply IH.
Qed.

(** The snapshot of the locals that stand for a list of filed projects is
    the grouping of that list. *)
Lemma snapshot_locals_of (filed : list (string * SimpleProject)) :
  snapshot (locals_of filed) = grouped filed.
Proof.
  unfold snapshot, locals_of, grouped. simpl.
  set (orgs := first_appearances filed.*1).
  apply list_eq. intros i.
  rewrite !list_lookup_fmap, lookup_zip_with.
  destruct (orgs !! i) as [o|] eqn:Ho; simpl; [|done].
  rewrite lookup_seq_lt by (eapply lookup_lt_Some; exact Ho). simpl.
  now rewrite list_lookup_fmap, Ho.
Qed.

(** Filing one more project is what lines 270-280 do to the locals. *)
Lemma append_under_locals_of (org : string) (p : SimpleProject)
    (filed : list (string * SimpleProject)) :
  append_under org p (locals_of filed) = locals_of (filed ++ [(org, p)]).
Proof.
  unfold append_under, locals_of. simpl.
  rewrite fmap_app. change ([(org, p)].*1) with [org].
  rewrite first_appearances_snoc.
  set (orgs := first_appearances filed.*1).
  assert (Hnd : NoDup orgs) by apply NoDup_first_appearances.
  destruct (decide (org ∈ filed.*1)) as [Hin|Hnot].
  - apply elem_of_first_appearances in Hin. fold orgs in Hin.
    apply list_elem_of_lookup in Hin as [i Hi].
    rewrite (dict_get_zip_seq org orgs i 0 Hnd Hi). simpl. f_equal.
    apply list_eq. intros j.
    rewrite list_lookup_alter, !list_lookup_fmap.
    destruct (decide (i = j)) as [<-|Hij].
    + rewrite Hi. simpl. rewrite projects_of_snoc, decide_True by done. done.
    + destruct (orgs !! j) as [o|] eqn:Hj; simpl; [|done].
      rewrite projects_of_snoc, decide_False, app_nil_r; [done|].
      intros <-. apply Hij. eapply NoDup_lookup; eauto.
  - assert (Hnot' : org ∉ orgs) by (unfold orgs; now rewrite elem_of_first_appearances).
    rewrite dict_get_zip_None by done. simpl.
    rewrite length_fmap, length_app. simpl. f_equal.
    + rewrite dict_set_snoc.
      * rewrite seq_app. simpl. rewrite zip_with_app by now rewrite length_seq.
        reflexivity.
      * rewrite fst_zip; [done|]. rewrite length_seq. lia.
    + rewrite fmap_app. simpl.
      rewrite projects_of_snoc, decide_True, projects_of_absent by done. simpl.
      apply list_eq. intros j.
      rewrite list_lookup_alter.
      destruct (decide (List.length orgs = j)) as [<-|Hj].
      * rewrite !lookup_app_r by (rewrite length_fmap; lia).
        rewrite !length_fmap, Nat.sub_diag. reflexivity.
      * destruct (decide (j < List.length orgs)%nat).
        -- rewrite !lookup_app_l by (rewrite length_fmap; lia).
           rewrite !list_lookup_fmap.
           destruct (orgs !! j) as [o|] eqn:Hoj; simpl; [|done].
           rewrite projects_of_snoc, decide_False, app_nil_r; [done|].
           intros <-. apply Hnot'. eapply list_elem_of_lookup_2. exact Hoj.
        -- rewrite !lookup_ge_None_2; [done| |];
             rewrite length_app, length_fmap; simpl; lia.
Qed.

Lemma for_each_app {St A : Type} (body : A -> M St unit) (l1 l2 : list A) (s : St) :
  for_each (l1 ++ l2) body s =
  match for_each l1 body s with
  | (Ret _, s') => for_each l2 body s'
  | (Raise e, s') => (Raise e, s')
  end.
Proof.
  revert s. induction l1 as [|x l1 IH]; intros s; simpl; [reflexivity|].
  unfold bind. destruct (body x s) as [[[]|e] s']; [apply IH|reflexivity].
Qed.

Section NormaliserBody.

Variable py_repr : json -> string.

(** A record that is left out passes through the loop body without a
    trace. *)
Lemma org_to_ids_body_unsupported (project : json) (st : locals) :
  unsupported project = true ->
  org_to_ids_body py_repr project st = (Ret tt, st).
Proof.
  unfold unsupported, org_to_ids_body. intros H.
  destruct project as [| | | | |?|o]; try discriminate.
  unfold bind, lift, py_contains, dict_contains, py_getitem.
  destruct (dict_get "protoproject" o) as [the_project|] eqn:Hproto.
  - destruct the_project as [| | | | |?|p]; try discriminate.
    destruct (dict_get "cloneUrl" p) as [url|]; [|discriminate].
    destruct url as [| | | |url| |]; try discriminate.
    unfold supported_host in H. now rewrite H.
  - destruct (dict_get "realProject" o) as [real|]; [|discriminate].
    destruct real as [| | | | |items|]; try discriminate.
    destruct items as [|first items]; [discriminate|].
    destruct first as [| | | | | |p]; try discriminate. simpl.
    destruct (dict_get "repoProvider" p) as [tag|]; [|discriminate].
    unfold supported_provider in H. now rewrite H.
Qed.

(** A record with neither key stops the loop body at line 268. *)
Lemma org_to_ids_body_unrecognized (project : json) (st : locals) :
  lacks_both_keys project = true ->
  org_to_ids_body py_repr project st = (Raise (unrecognized_shape py_repr project), st).
Proof.
  unfold lacks_both_keys, org_to_ids_body, bind, lift. intros H.
  destruct (py_contains "protoproject" project) as [[]|]; try discriminate.
  destruct (py_contains "realProject" project) as [[]|]; try discriminate.
  reflexivity.
Qed.

(** On a record of a recognised shape the loop body does what the
    specification says of normalisation. *)
Lemma org_to_ids_body_normalized (project : json) (st : locals) :
  recognized_shape project = true ->
  slug_names_org project = true ->
  org_to_ids_body py_repr project st =
  (Ret tt, match normalized project with
           | Some (org, p) => append_under org p st
           | None => st
           end).
Proof.
  unfold recognized_shape, slug_names_org, normalized, org_to_ids_body.
  intros Hshape Hslug.
  destruct project as [| | | | |?|o]; try discriminate.
  unfold bind, lift, py_contains, dict_contains, py_getitem.
  destruct (dict_get "protoproject" o) as [the_project|] eqn:Hproto.
  - destruct the_project as [| | | | |?|p]; try discriminate.
    destruct (dict_get "cloneUrl" p) as [[| | | |url| |]|]; try discriminate.
    destruct (dict_get "displayName" p) as [[| | | |name| |]|]; try discriminate.
    destruct (dict_get "key" p) as [k|]; try discriminate.
    unfold supported_host.
    destruct (is_substring "https://github.com/" url); reflexivity.
  - destruct (dict_get "realProject" o) as [[| | | | |[|[| | | | | |p] items]|]|];
      try discriminate. simpl.
    destruct (dict_get "slug" p) as [[| | | |slug| |]|]; try discriminate.
    destruct (dict_get "displayName" p) as [name|]; try discriminate.
    destruct (dict_get "key" p) as [k|]; try discriminate.
    destruct (dict_get "repoProvider" p) as [tag|]; try discriminate.
    unfold supported_provider in *.
    destruct (py_eq_str tag "github_apps"); simpl in *; [|reflexivity].
    apply bool_decide_eq_true in Hslug.
    destruct (split_on slash slug !! 1%nat) as [org|] eqn:Horg; [reflexivity|].
    apply lookup_ge_None in Horg. lia.
Qed.

(** The loop over recognised records files the kept ones, in order. *)
Lemma org_to_ids_loop_normalized (projects : list json) :
  forall filed : list (string * SimpleProject),
    Forall (fun r => recognized_shape r = true /\ slug_names_org r = true) projects ->
    for_each projects (org_to_ids_body py_repr) (locals_of filed) =
    (Ret tt, locals_of (filed ++ omap normalized projects)).
Proof.
  induction projects as [|r projects IH]; intros filed Hall.
  - simpl. now rewrite app_nil_r.
  - apply Forall_cons in Hall as [[Hshape Hslug] Hall].
    cbn [for_each]. unfold bind at 1.
    rewrite (org_to_ids_body_normalized r _ Hshape Hslug).
    cbn [omap list_omap]. destruct (normalized r) as [[org p]|].
    + rewrite append_under_locals_of, (IH _ Hall).
      now rewrite <- app_assoc.
    + apply IH, Hall.
Qed.

End NormaliserBody.

(** C2, amended.  On records of a recognised shape, where every kept
    realProject has a slug with a segment of index 1, [org_to_ids]
    returns the grouping of the normalised projects of the kept records:
    each with the display name and key of its record and the
    protoproject flag of its shape, under the first segment of the
    display name (protoproject) or the segment of index 1 of the slug
    (realProject); organisations in order of first appearance, projects
    in input order, nothing merged.  The two records of the end-to-end
    scenario give the mapping the specification states. *)
Theorem org_to_ids_groups_by_org (py_repr : json -> string) :
  (forall projects : list json,
      Forall (fun r => recognized_shape r = true /\ slug_names_org r = true) projects ->
      org_to_ids py_repr projects = Ret (grouped (omap normalized projects)))
  /\ org_to_ids py_repr [scenario_proto; scenario_real] =
     Ret [("orgA"%string,
           [{| display_name := JStr "orgA/x"; key := JStr "p1"; is_protoproject := true |}]);
          ("orgB"%string,
           [{| display_name := JStr "orgB/y"; key := JStr "p2"; is_protoproject := false |}])].
Proof.
  assert (Hgen : forall projects : list json,
             Forall (fun r => recognized_shape r = true /\ slug_names_org r = true) projects ->
             org_to_ids py_repr projects = Ret (grouped (omap normalized projects))).
  { intros projects Hall. unfold org_to_ids.
    change no_locals with (locals_of []).
    rewrite (org_to_ids_loop_normalized py_repr projects [] Hall).
    now rewrite snapshot_locals_of. }
  split; [exact Hgen|].
  rewrite Hgen; [reflexivity|].
  repeat constructor.
Qed.

(** Two organisations, one of them seen twice, and two records hosted
    elsewhere in between. *)
Lemma org_to_ids_groups_by_org_witness :
  org_to_ids sample_repr
    [scenario_proto; bitbucket_real; scenario_real; bitbucket_proto; second_proto] =
  Ret [("orgA"%string,
        [{| display_name := JStr "orgA/x"; key := JStr "p1"; is_protoproject := true |};
         {| display_name := JStr "orgA/w"; key := JStr "p3"; is_protoproject := true |}]);
       ("orgB"%string,
        [{| display_name := JStr "orgB/y"; key := JStr "p2"; is_protoproject := false |}])].
Proof.
  destruct (org_to_ids_groups_by_org sample_repr) as [Hgen _].
  rewrite Hgen; [reflexivity|].
  repeat constructor.
Defined.

(** C2 as stated fails: a realProject with all the fields of its shape
    and a slug without [/] has no segment of index 1, and the whole call
    ends in [IndexError]. *)
Lemma org_to_ids_slug_without_org :
  recognized_shape slugless_real = true
  /\ org_to_ids sample_repr [slugless_real] = Raise IndexError.
Proof. split; reflexivity. Qed.

(** C3.  A sequence with a record that has neither key never yields a
    mapping; and when the records before it go through, what is raised
    is the [KeyError] of line 268 for that record, whatever follows it. *)
Theorem org_to_ids_unrecognized_shape (py_repr : json -> string)
    (before after : list json) (bad : json) :
  lacks_both_keys bad = true ->
  (exists e, org_to_ids py_repr (before ++ bad :: after) = Raise e)
  /\ (forall m, org_to_ids py_repr before = Ret m ->
        org_to_ids py_repr (before ++ bad :: after) =
        Raise (unrecognized_shape py_repr bad)).
Proof.
  intros Hbad. unfold org_to_ids. rewrite for_each_app.
  destruct (for_each before (org_to_ids_body py_repr) no_locals) as [[[]|e] st].
  - cbn [for_each]. unfold bind.
    rewrite (org_to_ids_body_unrecognized py_repr bad st Hbad).
    split; [eauto|]. intros m _. reflexivity.
  - split; [eauto|]. intros m Hm. discriminate.
Qed.

Lemma org_to_ids_unrecognized_shape_witness :
  (exists e, org_to_ids sample_repr
               ([scenario_proto; scenario_real] ++ shapeless :: [second_proto]) = Raise e)
  /\ org_to_ids sample_repr
       ([scenario_proto; scenario_real] ++ shapeless :: [second_proto]) =
     Raise (KeyError (JStr "'realProject' nor 'protoproject' in <repr>")).
Proof.
  destruct (org_to_ids_unrecognized_shape sample_repr
              [scenario_proto; scenario_real] [second_proto] shapeless eq_refl)
    as [Hraise Hwhich].
  split; [exact Hraise|].
  eapply Hwhich. reflexivity.
Defined.

(** C4.  A protoproject whose clone URL lacks the supported host, and a
    realProject whose first element carries another provider tag, is
    left out: the call gives what it gives without the record, and the
    record alone gives the empty mapping. *)
Theorem org_to_ids_leaves_out_unsupported (py_repr : json -> string)
    (before after : list json) (r : json) :
  unsupported r = true ->
  org_to_ids py_repr (before ++ r :: after) = org_to_ids py_repr (before ++ after)
  /\ org_to_ids py_repr [r] = Ret [].
Proof.
  intros Hr. unfold org_to_ids. split.
  - rewrite !for_each_app.
    destruct (for_each before (org_to_ids_body py_repr) no_locals) as [[[]|e] st];
      [|reflexivity].
    cbn [for_each]. unfold bind at 1.
    now rewrite (org_to_ids_body_unsupported py_repr r st Hr).
  - cbn [for_each]. unfold bind.
    now rewrite (org_to_ids_body_unsupported py_repr r no_locals Hr).
Qed.

Lemma org_to_ids_leaves_out_unsupported_witness :
  (org_to_ids sample_repr ([scenario_proto] ++ bitbucket_proto :: [scenario_real]) =
   org_to_ids sample_repr ([scenario_proto] ++ [scenario_real])
   /\ org_to_ids sample_repr [bitbucket_proto] = Ret [])
  /\ (org_to_ids sample_repr ([scenario_proto] ++ bitbucket_real :: [scenario_real]) =
      org_to_ids sample_repr ([scenario_proto] ++ [scenario_real])
      /\ org_to_ids sample_repr [bitbucket_real] = Ret []).
Proof.
  split.
  - apply (org_to_ids_leaves_out_unsupported sample_repr
             [scenario_proto] [scenario_real] bitbucket_proto). reflexivity.
  - apply (org_to_ids_leaves_out_unsupported sample_repr
             [scenario_proto] [scenario_real] bitbucket_real). reflexivity.
Defined.

(** ** The session client *)

(** Where a call of the executor ends: after some number of calls of the
    thunk, between one and the retries left plus one; what it gives is
    the last call's result or non-SSL exception, unless it gave up. *)
Lemma resilient_run {St : Type} (thunk : M St Response) (n : nat) :
  forall (retry_count : Z) (s : St),
    retry_count = 4 - Z.of_nat n ->
    exists k : nat,
      (k <= n)%nat
      /\ (_resilient_request thunk retry_count s).2 = state_before thunk (S k) s
      /\ match (_resilient_request thunk retry_count s).1 with
         | Ret r => outcome_of_attempt thunk k s = Ret r
         | Raise e =>
             is_LGTMRequestException e = true
             \/ (is_SSLError e = false /\ outcome_of_attempt thunk k s = Raise e)
         end.
Proof.
  induction n as [|n IH]; intros rc s Hrc.
  - exists 0%nat. unfold outcome_of_attempt. cbn [state_before].
    destruct (thunk s) as [[r|e] s'] eqn:Hs.
    + rewrite (resilient_returns thunk rc s r s' Hs). simpl. auto.
    + destruct (is_SSLError e) eqn:He.
      * destruct e; try discriminate.
        rewrite (resilient_gives_up thunk rc s info s' Hs) by lia. simpl. auto.
      * rewrite (resilient_propagates thunk rc s e s' Hs He). simpl. auto.
  - destruct (thunk s) as [[r|e] s'] eqn:Hs.
    + exists 0%nat. unfold outcome_of_attempt. cbn [state_before].
      rewrite (resilient_returns thunk rc s r s' Hs), Hs. split; [lia|simpl; auto].
    + destruct (is_SSLError e) eqn:He.
      * destruct e; try discriminate.
        rewrite (resilient_retries thunk rc s info s' Hs) by lia.
        destruct (IH (rc + 1) s' ltac:(lia)) as (k & Hk & Hst & Hres).
        exists (S k). split; [lia|]. unfold outcome_of_attempt in *.
        cbn [state_before]. rewrite Hs. simpl. auto.
      * exists 0%nat. unfold outcome_of_attempt. cbn [state_before].
        rewrite (resilient_propagates thunk rc s e s' Hs He), Hs.
        split; [lia|simpl; auto].
Qed.

Lemma requests_of_app (tr1 tr2 : trace) :
  requests_of (tr1 ++ tr2) = requests_of tr1 ++ requests_of tr2.
Proof. apply List.filter_app. Qed.

Lemma requests_of_printed (tr : trace) (line : string) :
  requests_of (tr ++ [Printed line]) = requests_of tr.
Proof. rewrite requests_of_app. simpl. apply app_nil_r. Qed.

Lemma requests_of_slept (tr : trace) (seconds : Z) :
  requests_of (tr ++ [Slept seconds]) = requests_of tr.
Proof. rewrite requests_of_app. simpl. apply app_nil_r. Qed.

Lemma requests_of_replicate (n : nat) (e : event) :
  is_request e = true -> requests_of (replicate n e) = replicate n e.
Proof.
  intros He. unfold requests_of. induction n as [|n IH]; [reflexivity|].
  simpl. now rewrite He, IH.
Qed.

Section Client.

Variable py_repr : json -> string.
Variable network : trace -> res Response.

(** Repeating one POST only repeats its event. *)
Lemma requests_post_states url data cookies headers (k : nat) : forall tr : trace,
  state_before (requests_post network url data cookies headers) k tr =
  tr ++ replicate k (HttpPost url data cookies headers).
Proof.
  induction k as [|k IH]; intros tr; simpl.
  - now rewrite app_nil_r.
  - rewrite IH. now rewrite <- app_assoc.
Qed.

Lemma requests_post_outcome url data cookies headers (k : nat) (tr : trace) :
  outcome_of_attempt (requests_post network url data cookies headers) k tr =
  network (tr ++ replicate (S k) (HttpPost url data cookies headers)).
Proof.
  unfold outcome_of_attempt. rewrite requests_post_states.
  unfold requests_post. simpl. rewrite <- app_assoc.
  now rewrite <- replicate_S_end.
Qed.

(** What a POST does to the trace and how it can end: the one request,
    sent between one and five times, and nothing else on the wire; and,
    when the remote end is calm, a result or a request failure. *)
Lemma make_lgtm_post_run (self : LGTMSite) (url : string) (data : dict json)
    (tr : trace) :
  exists n : nat,
    (1 <= n <= 5)%nat
    /\ requests_of (_make_lgtm_post py_repr network self url data tr).2 =
       requests_of tr
       ++ replicate n (HttpPost url
                         (dict_merge [("apiVersion"%string, JStr (api_version self))] data)
                         (_cookies self) (_headers self))
    /\ ((forall t, calm (network t) = true) ->
        match (_make_lgtm_post py_repr network self url data tr).1 with
        | Ret _ => True
        | Raise e => is_LGTMRequestException e = true
        end).
Proof.
  set (full_data := dict_merge [("apiVersion"%string, JStr (api_version self))] data).
  set (ev := HttpPost url full_data (_cookies self) (_headers self)).
  set (thunk := requests_post network url full_data (_cookies self) (_headers self)).
  set (tr1 := tr ++ [Printed (py_str py_repr (JObj data))]).
  destruct (resilient_run thunk 4 0 tr1 eq_refl) as (k & Hk & Hst & Hres).
  unfold thunk in Hst, Hres.
  rewrite requests_post_states in Hst. rewrite requests_post_outcome in Hres.
  fold thunk ev in Hst, Hres.
  assert (Hreq : requests_of (tr1 ++ replicate (S k) ev) =
                 requests_of tr ++ replicate (S k) ev).
  { unfold tr1. rewrite requests_of_app, requests_of_printed.
    now rewrite requests_of_replicate. }
  exists (S k). split; [lia|].
  destruct (_make_lgtm_post py_repr network self url data tr) as [res trf] eqn:Hrun.
  cbn [fst snd].
  unfold _make_lgtm_post in Hrun. fold full_data thunk in Hrun.
  unfold bind at 1 in Hrun. unfold print at 1 in Hrun. fold tr1 in Hrun.
  unfold bind at 1 in Hrun.
  destruct (_resilient_request thunk 0 tr1) as [[r|e] tr2];
    cbn [fst snd] in Hst, Hres; subst tr2.
  - unfold bind, try_except, response_json, print, lift, raise, ret in Hrun.
    destruct (json_body r) as [j|] eqn:Hj.
    + assert (Hstatus : (forall t, calm (network t) = true) ->
                        exists o s, j = JObj o /\ dict_get "status" o = Some s).
      { intros Hcalm. specialize (Hcalm (tr1 ++ replicate (S k) ev)).
        rewrite Hres in Hcalm. cbn [calm] in Hcalm. rewrite Hj in Hcalm.
        destruct j as [| | | | | |o]; try discriminate.
        unfold dict_contains in Hcalm.
        destruct (dict_get "status" o) as [s|] eqn:Hs; [eauto|discriminate]. }
      destruct (py_getitem j "status") as [status|e] eqn:Hget.
      * destruct (py_eq_str status "success").
        -- destruct (py_contains "data" j) as [[]|e] eqn:Hdata.
           ++ destruct (py_getitem j "data") as [x|e] eqn:Hx;
                inversion Hrun; subst; rewrite requests_of_printed;
                (split; [exact Hreq|]); [done|].
              intros Hcalm. destruct (Hstatus Hcalm) as (o & s & -> & _).
              cbn [py_contains py_getitem] in Hdata, Hx.
              unfold dict_contains in Hdata.
              destruct (dict_get "data" o); discriminate.
           ++ inversion Hrun; subst. rewrite requests_of_printed.
              split; [exact Hreq|done].
           ++ inversion Hrun; subst. rewrite requests_of_printed.
              split; [exact Hreq|]. intros Hcalm.
              destruct (Hstatus Hcalm) as (o & s & -> & _). discriminate.
        -- inversion Hrun; subst. rewrite requests_of_printed.
              split; [exact Hreq|done].
      * inversion Hrun; subst. rewrite requests_of_printed.
        split; [exact Hreq|]. intros Hcalm.
        destruct (Hstatus Hcalm) as (o & s & -> & Hs).
        cbn [py_getitem] in Hget. rewrite Hs in Hget. discriminate.
    + inversion Hrun; subst. split; [exact Hreq|done].
  - inversion Hrun; subst. split; [exact Hreq|].
    intros Hcalm. destruct Hres as [Hgave|[Hnot Hraised]]; [exact Hgave|].
    specialize (Hcalm (tr1 ++ replicate (S k) ev)).
    rewrite Hraised in Hcalm. cbn [calm] in Hcalm. congruence.
Qed.

End Client.

Section ClientCalls.

Variable py_repr : json -> string.
Variable network : trace -> res Response.
Variable self : LGTMSite.

(** A POST answered with a body that is not JSON: a request failure that
    carries the body, after the one request. *)
Lemma make_lgtm_post_unparseable_body (url : string) (data : dict json)
    (tr : trace) (r : Response) :
  let sent := [Printed (py_str py_repr (JObj data));
               HttpPost url (dict_merge [("apiVersion"%string, JStr (api_version self))] data)
                 (_cookies self) (_headers self)] in
  network (tr ++ sent) = Ret r ->
  json_body r = None ->
  _make_lgtm_post py_repr network self url data tr =
  (Raise (LGTMRequestException ("Failed to parse JSON. Response was: " +:+ text r)
            (Some (ValueError "JSONDecodeError"))),
   tr ++ sent).
Proof.
  intros sent Hnet Hbody. unfold _make_lgtm_post.
  unfold bind at 1. unfold print at 1. unfold bind at 1.
  erewrite resilient_returns; cycle 1.
  { unfold requests_post. cbn zeta. rewrite <- app_assoc. cbn [app].
    fold sent. rewrite Hnet. reflexivity. }
  unfold bind, try_except, response_json. rewrite Hbody. reflexivity.
Qed.

(** A POST answered with JSON whose status is not success: a request
    failure that carries the parsed body, after the one request. *)
Lemma make_lgtm_post_status_not_success (url : string) (data : dict json)
    (tr : trace) (r : Response) (j status : json) :
  let sent := [Printed (py_str py_repr (JObj data));
               HttpPost url (dict_merge [("apiVersion"%string, JStr (api_version self))] data)
                 (_cookies self) (_headers self)] in
  network (tr ++ sent) = Ret r ->
  json_body r = Some j ->
  py_getitem j "status" = Ret status ->
  py_eq_str status "success" = false ->
  _make_lgtm_post py_repr network self url data tr =
  (Raise (LGTMRequestException
            ("LGTM POST request failed with response: " +:+ py_str py_repr j) None),
   tr ++ sent ++ [Printed (py_str py_repr j)]).
Proof.
  intros sent Hnet Hbody Hstatus Hne. unfold _make_lgtm_post.
  unfold bind at 1. unfold print at 1. unfold bind at 1.
  erewrite resilient_returns; cycle 1.
  { unfold requests_post. cbn zeta. rewrite <- app_assoc. cbn [app].
    fold sent. rewrite Hnet. reflexivity. }
  unfold bind, try_except, response_json, print, lift. rewrite Hbody.
  unfold ret. rewrite Hstatus, Hne. unfold raise.
  now rewrite <- !app_assoc.
Qed.

(** The same answer to the GET of [get_my_projects]. *)
Lemma get_my_projects_status_not_success (tr : trace) (r : Response)
    (j status : json) :
  let sent := [HttpGet (getMyProjects_url self) (_cookies self) (_headers self)] in
  network (tr ++ sent) = Ret r ->
  json_body r = Some j ->
  py_getitem j "status" = Ret status ->
  py_eq_str status "success" = false ->
  get_my_projects py_repr network self tr =
  (Raise (LGTMRequestException
            ("LGTM GET request failed with response: " +:+ py_str py_repr j) None),
   tr ++ sent).
Proof.
  intros sent Hnet Hbody Hstatus Hne. unfold get_my_projects, _make_lgtm_get.
  unfold bind at 1. unfold bind at 1.
  erewrite resilient_returns; cycle 1.
  { unfold requests_get. cbn zeta. fold sent. rewrite Hnet. reflexivity. }
  unfold response_json. rewrite Hbody. unfold ret, bind, lift.
  now rewrite Hstatus, Hne.
Qed.

(** [force_rebuild_project] turns a request failure of its POST into a
    printed line. *)
Lemma force_rebuild_project_catches (p : SimpleProject) (tr tr' : trace)
    (msg : string) (cause : option exn) :
  _make_lgtm_post py_repr network self rebuildProtoproject_url (rebuild_data p) tr =
    (Raise (LGTMRequestException msg cause), tr') ->
  force_rebuild_project py_repr network self p tr =
  (Ret tt,
   tr' ++ [Printed ("Failed rebuilding project. This may be because it is already being built. `"
                    +:+ SimpleProject_repr py_repr p +:+ "`")]).
Proof.
  intros Hpost. unfold force_rebuild_project, try_except, bind.
  rewrite Hpost. reflexivity.
Qed.

Hypothesis network_calm : forall t, calm (network t) = true.

(** With a calm remote end a rebuild always returns, having sent its
    request between one and five times. *)
Lemma force_rebuild_project_calm (p : SimpleProject) (tr : trace) :
  is_protoproject p = true ->
  exists n : nat,
    (1 <= n <= 5)%nat
    /\ (force_rebuild_project py_repr network self p tr).1 = Ret tt
    /\ requests_of (force_rebuild_project py_repr network self p tr).2 =
       requests_of tr ++ replicate n (rebuild_request self p).
Proof.
  intros Hproto.
  destruct (make_lgtm_post_run py_repr network self rebuildProtoproject_url
              (rebuild_data p) tr) as (n & Hn & Hreq & Hres).
  specialize (Hres network_calm).
  exists n. split; [exact Hn|].
  assert (Hdata : dict_merge [("apiVersion"%string, JStr (api_version self))] (rebuild_data p) =
                  [("apiVersion"%string, JStr (api_version self));
                   ("protoproject_key"%string, key p);
                   ("config"%string, JStr EmptyString)]).
  { unfold rebuild_data, make_post_data. rewrite Hproto. reflexivity. }
  rewrite Hdata in Hreq. fold (rebuild_request self p) in Hreq.
  unfold force_rebuild_project, try_except, bind.
  destruct (_make_lgtm_post py_repr network self rebuildProtoproject_url
              (rebuild_data p) tr) as [[j|e] tr'].
  - split; [reflexivity|exact Hreq].
  - cbn [fst snd] in Hres, Hreq. rewrite Hres. unfold print. cbn [fst snd].
    split; [reflexivity|]. now rewrite requests_of_printed.
Qed.

(** The inner loop over any list of projects. *)
Lemma rebuild_each_calm (projects : list SimpleProject) : forall tr : trace,
  let body := fun project : SimpleProject =>
    if negb (is_protoproject project) then ret tt
    else time_sleep 1 ;;; force_rebuild_project py_repr network self project in
  exists ns : list nat,
    List.length ns = List.length (List.filter is_protoproject projects)
    /\ Forall (fun n => 1 <= n <= 5)%nat ns
    /\ (for_each projects body tr).1 = Ret tt
    /\ requests_of (for_each projects body tr).2 =
       requests_of tr
       ++ List.concat (zip_with replicate ns
                         (map (rebuild_request self)
                              (List.filter is_protoproject projects))).
Proof.
  induction projects as [|p projects IH]; intros tr body.
  - exists []. cbn. rewrite app_nil_r. auto.
  - destruct (is_protoproject p) eqn:Hp.
    + destruct (force_rebuild_project_calm p (tr ++ [Slept 1]) Hp)
        as (n & Hn & Hret & Hreq).
      assert (Hstep : for_each (p :: projects) body tr =
                      for_each projects body
                        (force_rebuild_project py_repr network self p (tr ++ [Slept 1])).2).
      { cbn [for_each]. unfold bind at 1. unfold body at 1. rewrite Hp. cbn [negb].
        unfold bind at 1. unfold time_sleep at 1.
        destruct (force_rebuild_project py_repr network self p (tr ++ [Slept 1]))
          as [res tr']. cbn [fst snd] in Hret |- *. now subst res. }
      destruct (IH (force_rebuild_project py_repr network self p (tr ++ [Slept 1])).2)
        as (ns & Hlen & Hall & Hres & Hreqs).
      exists (n :: ns). rewrite Hstep. fold body in Hres, Hreqs.
      rewrite Hres, Hreqs, Hreq, requests_of_slept.
      cbn [List.filter]. rewrite Hp. cbn. rewrite Hlen, <- !app_assoc. auto.
    + assert (Hstep : for_each (p :: projects) body tr = for_each projects body tr).
      { cbn [for_each]. unfold bind at 1. unfold body at 1. rewrite Hp. reflexivity. }
      rewrite Hstep. cbn [List.filter]. rewrite Hp. apply IH.
Qed.

End ClientCalls.

Lemma dict_get_is_Some {V : Type} (org : string) (d : dict V) :
  org ∈ d.*1 -> is_Some (dict_get org d).
Proof.
  induction d as [|[k v] d IH]; intros Hin; [now apply elem_of_nil in Hin|].
  cbn [dict_get]. destruct (decide (k = org)); [eauto|].
  apply IH. cbn in Hin. apply elem_of_cons in Hin as [Heq|Hin]; [|exact Hin].
  cbn in Heq. congruence.
Qed.

(** The outer loop over any list of keys that the dict holds. *)
Lemma rebuild_loop_keys {St : Type} (body : SimpleProject -> M St unit)
    (d : dict (list SimpleProject)) (keys : list string) : forall s : St,
  (forall org, org ∈ keys -> is_Some (dict_get org d)) ->
  for_each keys (fun org =>
    match dict_get org d with
    | None => raise (KeyError (JStr org))
    | Some projects => for_each projects body
    end) s =
  for_each (List.concat (map (fun org => default [] (dict_get org d)) keys)) body s.
Proof.
  induction keys as [|org keys IH]; intros s Hkeys; [reflexivity|].
  cbn [for_each map List.concat]. unfold bind at 1.
  destruct (Hkeys org ltac:(apply elem_of_cons; left; reflexivity)) as [ps Hps].
  rewrite Hps. cbn [default from_option id]. rewrite for_each_app.
  destruct (for_each ps body s) as [[[]|e] s']; [|reflexivity].
  apply IH. intros o Ho. apply Hkeys. apply elem_of_cons. right. exact Ho.
Qed.

(** The two loops of [rebuild_loop] come to the projects in the order of
    [all_projects]: every key of the dict is found in it. *)
Lemma rebuild_loop_flat (py_repr : json -> string) (network : trace -> res Response)
    (self : LGTMSite) (d : dict (list SimpleProject)) (tr : trace) :
  rebuild_loop py_repr network self d tr =
  for_each (all_projects d)
    (fun project =>
       if negb (is_protoproject project) then ret tt
       else time_sleep 1 ;;; force_rebuild_project py_repr network self project) tr.
Proof.
  apply rebuild_loop_keys. intros org. apply dict_get_is_Some.
Qed.

(** C6, where the code departs from it.  When the remote end answers
    the GET of [get_my_projects] with a body that is not JSON, what
    reaches the caller is the [ValueError] of [r.json()], not an
    [LGTMRequestException] carrying the body. *)
Theorem get_my_projects_unparseable_body (py_repr : json -> string)
    (network : trace -> res Response) (self : LGTMSite) (tr : trace) (r : Response) :
  network (tr ++ [HttpGet (getMyProjects_url self) (_cookies self) (_headers self)]) = Ret r ->
  json_body r = None ->
  get_my_projects py_repr network self tr =
  (Raise (ValueError "JSONDecodeError"),
   tr ++ [HttpGet (getMyProjects_url self) (_cookies self) (_headers self)]).
Proof.
  intros Hnet Hbody. unfold get_my_projects, _make_lgtm_get.
  unfold bind at 1. unfold bind at 1.
  erewrite resilient_returns; cycle 1.
  { unfold requests_get. cbn zeta. rewrite Hnet. reflexivity. }
  unfold response_json. now rewrite Hbody.
Qed.

Lemma get_my_projects_unparseable_body_witness :
  get_my_projects sample_repr html_network sample_site [] =
  (Raise (ValueError "JSONDecodeError"),
   [HttpGet "https://lgtm.com/internal_api/v0.2/getMyProjects?apiVersion=5b0cb1a"
      [("lgtm_long_session"%string, "long"%string);
       ("lgtm_short_session"%string, "short"%string)]
      [("LGTM-Nonce"%string, "n0"%string)]]).
Proof.
  apply (get_my_projects_unparseable_body sample_repr html_network sample_site []
           {| text := "<html>502 Bad Gateway</html>"; json_body := None |});
    reflexivity.
Defined.

(** C7.  [load_into_project_list] puts on the wire one request only,
    between one and five times: a POST whose form holds the identifiers
    as the single value of [addedProjects], each in double quotes, joined
    by a comma and a space, in square brackets, and [[]] as the value of
    [removedProjects].  No identifier gives [[]]; [a] and [b] give the two
    quoted and separated. *)
Theorem load_into_project_list_form_value (py_repr : json -> string)
    (network : trace -> res Response) (self : LGTMSite) (into_project : Z)
    (lgtm_project_ids : list json) (tr : trace) :
  (exists n : nat,
      (1 <= n <= 5)%nat
      /\ requests_of
           (load_into_project_list py_repr network self into_project lgtm_project_ids tr).2 =
         requests_of tr
         ++ replicate n
              (HttpPost "https://lgtm.com/internal_api/v0.2/updateProjectSelection"
                 [("apiVersion"%string, JStr (api_version self));
                  ("projectSelectionId"%string, JInt into_project);
                  ("addedProjects"%string,
                   JStr ("[" +:+ join ", " (map (fun id => dquote +:+ py_str py_repr id +:+ dquote)
                                              lgtm_project_ids) +:+ "]"));
                  ("removedProjects"%string, JStr "[]")]
                 (_cookies self) (_headers self)))
  /\ "[" +:+ list_serialized py_repr [] +:+ "]" = "[]"%string
  /\ "[" +:+ list_serialized py_repr [JStr "a"; JStr "b"] +:+ "]" =
     "[" +:+ dquote +:+ "a" +:+ dquote +:+ ", " +:+ dquote +:+ "b" +:+ dquote +:+ "]".
Proof.
  split; [|split; reflexivity].
  unfold load_into_project_list.
  match goal with |- context [_make_lgtm_post py_repr network self ?u ?d] =>
    destruct (make_lgtm_post_run py_repr network self u d tr) as (n & Hn & Hreq & _);
    exists n; split; [exact Hn|];
    unfold bind; destruct (_make_lgtm_post py_repr network self u d tr) as [[j|e] tr']
  end; exact Hreq.
Qed.

(** C9.  [extract_project_under_org] never raises: for an organisation
    that is not in the grouping it prints a line and returns the empty
    list, and for one that is it returns the list the grouping holds. *)
Theorem extract_project_under_org_total (org : string)
    (projects_sorted : dict (list SimpleProject)) (tr : trace) :
  match dict_get org projects_sorted with
  | None =>
      extract_project_under_org org projects_sorted tr =
      (Ret [], tr ++ [Printed ("org " +:+ org +:+ " not found in projects list")])
  | Some projects =>
      extract_project_under_org org projects_sorted tr = (Ret projects, tr)
  end.
Proof.
  unfold extract_project_under_org, dict_contains.
  destruct (dict_get org projects_sorted); reflexivity.
Qed.

(** C10.  [add_org_to_project_list_by_list_name] does nothing: it
    returns [None] and leaves the trace as it was, so no request is
    sent, nothing is printed and no time is spent. *)
Theorem add_org_to_project_list_by_list_name_does_nothing (self : LGTMSite)
    (org project_name : string) (tr : trace) :
  add_org_to_project_list_by_list_name self org project_name tr = (Ret tt, tr).
Proof. reflexivity. Qed.

(** C8.  A request failure of a project's rebuild is caught by
    [force_rebuild_project] and printed.  So when request failures are
    all that can go wrong, [force_rebuild_all_proto_projects] ends
    normally, and after listing the projects it has sent the rebuild
    request of every protoproject of the grouping, in order, each between
    one and five times, and no other request: none for a project that is
    not a protoproject. *)
Theorem force_rebuild_all_tolerates_request_failures (py_repr : json -> string)
    (network : trace -> res Response) (self : LGTMSite) :
  (forall (p : SimpleProject) (tr tr' : trace) (msg : string) (cause : option exn),
      _make_lgtm_post py_repr network self rebuildProtoproject_url (rebuild_data p) tr =
        (Raise (LGTMRequestException msg cause), tr') ->
      force_rebuild_project py_repr network self p tr =
      (Ret tt,
       tr' ++ [Printed ("Failed rebuilding project. This may be because it is already being built. `"
                        +:+ SimpleProject_repr py_repr p +:+ "`")]))
  /\ (forall (tr tr1 : trace) (projects : json) (records : list json)
             (d : dict (list SimpleProject)),
        (forall t, calm (network t) = true) ->
        get_my_projects py_repr network self tr = (Ret projects, tr1) ->
        py_iter projects = Ret records ->
        org_to_ids py_repr records = Ret d ->
        exists ns : list nat,
          List.length ns = List.length (List.filter is_protoproject (all_projects d))
          /\ Forall (fun n => 1 <= n <= 5)%nat ns
          /\ (force_rebuild_all_proto_projects py_repr network self tr).1 = Ret tt
          /\ requests_of (force_rebuild_all_proto_projects py_repr network self tr).2 =
             requests_of tr1
             ++ List.concat (zip_with replicate ns
                               (map (rebuild_request self)
                                    (List.filter is_protoproject (all_projects d))))).
Proof.
  split; [apply force_rebuild_project_catches|].
  intros tr tr1 projects records d Hcalm Hget Hiter Hgroup.
  assert (Hrun : force_rebuild_all_proto_projects py_repr network self tr =
                 rebuild_loop py_repr network self d tr1).
  { unfold force_rebuild_all_proto_projects.
    unfold bind at 1. rewrite Hget.
    unfold bind at 1, lift at 1. rewrite Hiter.
    unfold bind at 1, lift at 1. now rewrite Hgroup. }
  rewrite Hrun, rebuild_loop_flat.
  apply (rebuild_each_calm py_repr network self Hcalm).
Qed.

Lemma batch_network_calm (t : trace) : calm (batch_network t) = true.
Proof.
  unfold batch_network.
  destruct (List.length (requests_of t)) as [|[|[|n]]]; reflexivity.
Qed.

(** The remote end lists three projects, refuses the first rebuild and
    accepts the second: both protoprojects are asked for, the
    realProject between them is not. *)
Lemma force_rebuild_all_tolerates_request_failures_witness :
  (exists tr',
      force_rebuild_project sample_repr batch_network sample_site scenario_project
        [HttpGet (getMyProjects_url sample_site) (_cookies sample_site) (_headers sample_site)]
      = (Ret tt, tr'))
  /\ (exists ns : list nat,
        List.length ns = 2%nat
        /\ Forall (fun n => 1 <= n <= 5)%nat ns
        /\ (force_rebuild_all_proto_projects sample_repr batch_network sample_site []).1 = Ret tt
        /\ requests_of (force_rebuild_all_proto_projects sample_repr batch_network sample_site []).2 =
           [HttpGet (getMyProjects_url sample_site) (_cookies sample_site) (_headers sample_site)]
           ++ List.concat (zip_with replicate ns
                             [rebuild_request sample_site scenario_project;
                              rebuild_request sample_site
                                {| display_name := JStr "orgA/w"; key := JStr "p3";
                                   is_protoproject := true |}])).
Proof.
  destruct (force_rebuild_all_tolerates_request_failures sample_repr batch_network sample_site)
    as [Hcatch Hbatch].
  split.
  - eexists. eapply Hcatch. vm_compute. reflexivity.
  - apply (Hbatch []
             [HttpGet (getMyProjects_url sample_site) (_cookies sample_site) (_headers sample_site)]
             (JList [scenario_proto; scenario_real; second_proto])
             [scenario_proto; scenario_real; second_proto]
             [("orgA"%string,
               [scenario_project;
                {| display_name := JStr "orgA/w"; key := JStr "p3"; is_protoproject := true |}]);
              ("orgB"%string,
               [{| display_name := JStr "orgB/y"; key := JStr "p2"; is_protoproject := false |}])]
             batch_network_calm); reflexivity.
Defined.

(* ================================================================== *)
(** * Further properties of the code *)
(* ================================================================== *)

(** ** The executor, for any retry count *)


Lemma resilient_loop_calls {St : Type} (thunk : M St Response) (fuel : nat) :
  forall (retry_count : Z) (s : St) (c : nat),
    (c + 1 <= (resilient_loop fuel (counted thunk) retry_count (s, c)).2.2 <= c + fuel + 1)%nat.
Proof.
  induction fuel as [|fuel IH]; intros rc s c; cbn [resilient_loop];
    unfold try_except; rewrite counted_step;
    destruct (thunk s) as [[r|e] s']; cbn [fst snd]; try lia;
    destruct (is_SSLError e); cbn [fst snd]; try lia;
    destruct (rc <? 4); cbn [fst snd raise]; try lia.
  specialize (IH (rc + 1) s' (S c)). lia.
Qed.


(** X2.  For any retry count the thunk is called at least once and at
    most once more than the retries left below the cap of 4; from a
    count of 4 or more it is called exactly once. *)
Theorem resilient_request_attempt_bounds {St : Type} (thunk : M St Response)
    (retry_count : Z) (s : St) :
  (1 <= attempts thunk retry_count s <= Z.to_nat (4 - retry_count) + 1)%nat
  /\ (4 <= retry_count -> attempts thunk retry_count s = 1%nat).
Proof.
  unfold attempts, _resilient_request.
  pose proof (resilient_loop_calls thunk (Z.to_nat (4 - retry_count)) retry_count s 0%nat) as H.
  split; [lia|]. intros Hrc.
  replace (Z.to_nat (4 - retry_count)) with 0%nat in * by lia. lia.
Qed.

Lemma resilient_request_attempt_bounds_witness :
  attempts (flaky_thunk 9) 4 0%nat = 1%nat
  /\ (1 <= attempts (flaky_thunk 9) 2 0%nat <= 3)%nat.
Proof.
  destruct (resilient_request_attempt_bounds (flaky_thunk 9) 4 0%nat) as [_ Hone].
  destruct (resilient_request_attempt_bounds (flaky_thunk 9) 2 0%nat) as [Hbounds _].
  split; [apply Hone; lia|exact Hbounds].
Defined.

(** ** The normaliser, on any input *)

Section NormaliserAnyInput.

Variable py_repr : json -> string.

(** What the loop body does never depends on the locals: it either ends
    without touching them (a record left out, or an exception) or files
    one project. *)
Lemma org_to_ids_body_shape (project : json) :
  (exists res, forall st, org_to_ids_body py_repr project st = (res, st))
  \/ (exists org p, forall st,
         org_to_ids_body py_repr project st = (Ret tt, append_under org p st)).
Proof.
  unfold org_to_ids_body, bind, lift, ret, raise.
  repeat match goal with
         | |- context [match ?x with _ => _ end] =>
             lazymatch x with
             | (_, _) => fail
             | _ => destruct x
             end
         end;
    first [ left; eexists; intros st; reflexivity
          | right; do 2 eexists; intros st; reflexivity ].
Qed.

(** From locals that stand for a list of filed projects the loop ends, on
    any records, in locals that stand for such a list. *)
Lemma org_to_ids_loop_shape (records : list json) :
  forall filed : list (string * SimpleProject),
    exists res filed',
      for_each records (org_to_ids_body py_repr) (locals_of filed) = (res, locals_of filed').
Proof.
  induction records as [|r records IH]; intros filed; [cbn; eauto|].
  cbn [for_each]. unfold bind.
  destruct (org_to_ids_body_shape r) as [[res Hsame]|(org & p & Hfiled)].
  - rewrite Hsame. destruct res as [[]|e]; [apply IH|eauto].
  - rewrite Hfiled, append_under_locals_of. apply IH.
Qed.

(** Whatever [org_to_ids] returns is the grouping of some list of filed
    projects. *)
Lemma org_to_ids_is_grouping (records : list json) (d : dict (list SimpleProject)) :
  org_to_ids py_repr records = Ret d -> exists filed, d = grouped filed.
Proof.
  unfold org_to_ids. change no_locals with (locals_of []).
  destruct (org_to_ids_loop_shape records []) as (res & filed & Hrun).
  rewrite Hrun. destruct res as [[]|e]; [|discriminate].
  intros [= <-]. exists filed. apply snapshot_locals_of.
Qed.

(** A record that raises alone raises the same from any locals; one that
    returns alone never raises. *)
Lemma org_to_ids_body_alone_raises (r : json) (e : exn) :
  org_to_ids py_repr [r] = Raise e ->
  forall st, org_to_ids_body py_repr r st = (Raise e, st).
Proof.
  unfold org_to_ids. cbn [for_each]. unfold bind.
  destruct (org_to_ids_body_shape r) as [[res Hsame]|(org & p & Hfiled)].
  - rewrite Hsame. destruct res as [[]|e']; [discriminate|].
    intros [= ->]. exact Hsame.
  - rewrite Hfiled. discriminate.
Qed.

Lemma org_to_ids_body_alone_returns (r : json) (d : dict (list SimpleProject)) :
  org_to_ids py_repr [r] = Ret d ->
  forall st, (org_to_ids_body py_repr r st).1 = Ret tt.
Proof.
  unfold org_to_ids. cbn [for_each]. unfold bind.
  destruct (org_to_ids_body_shape r) as [[res Hsame]|(org & p & Hfiled)].
  - rewrite Hsame. destruct res as [[]|e']; [|discriminate].
    intros _ st. now rewrite Hsame.
  - intros _ st. now rewrite Hfiled.
Qed.

Lemma org_to_ids_loop_returns (records : list json) : forall st : locals,
  Forall (fun r => exists d, org_to_ids py_repr [r] = Ret d) records ->
  (for_each records (org_to_ids_body py_repr) st).1 = Ret tt.
Proof.
  induction records as [|r records IH]; intros st Hall; [reflexivity|].
  apply Forall_cons in Hall as [[d Hr] Hall].
  cbn [for_each]. unfold bind.
  pose proof (org_to_ids_body_alone_returns r d Hr st) as Hst.
  destruct (org_to_ids_body py_repr r st) as [[[]|e] st']; [|discriminate].
  now apply IH.
Qed.

End NormaliserAnyInput.

Lemma grouped_keys (filed : list (string * SimpleProject)) :
  (grouped filed).*1 = first_appearances filed.*1.
Proof.
  unfold grouped. rewrite <- list_fmap_compose.
  apply list_fmap_id.
Qed.

Lemma projects_of_present (org : string) (filed : list (string * SimpleProject)) :
  org ∈ filed.*1 -> projects_of org filed <> [].
Proof.
  unfold projects_of. induction filed as [|[o p] filed IH]; intros Hin.
  - now apply elem_of_nil in Hin.
  - destruct (decide (o = org)) as [->|Hne].
    + now rewrite filter_cons_True by done.
    + rewrite filter_cons_False by (cbn; congruence).
      apply IH. cbn in Hin. apply elem_of_cons in Hin as [Heq|Hin]; [|exact Hin].
      cbn in Heq. congruence.
Qed.

(** X3.  Whatever the records, a mapping that [org_to_ids] returns
    names every organisation once and gives none of them an empty list. *)
Theorem org_to_ids_result_invariant (py_repr : json -> string)
    (records : list json) (d : dict (list SimpleProject)) :
  org_to_ids py_repr records = Ret d ->
  NoDup d.*1 /\ Forall (fun entry => entry.2 <> []) d.
Proof.
  intros Hd. destruct (org_to_ids_is_grouping py_repr records d Hd) as [filed ->].
  split.
  - rewrite grouped_keys. apply NoDup_first_appearances.
  - unfold grouped. apply Forall_fmap, Forall_forall. intros org Horg. cbn.
    apply projects_of_present. now apply elem_of_first_appearances.
Qed.

Lemma org_to_ids_result_invariant_witness :
  NoDup ["orgA"%string; "orgB"%string]
  /\ Forall (fun entry : string * list SimpleProject => entry.2 <> [])
       [("orgA"%string,
         [scenario_project;
          {| display_name := JStr "orgA/w"; key := JStr "p3"; is_protoproject := true |}]);
        ("orgB"%string,
         [{| display_name := JStr "orgB/y"; key := JStr "p2"; is_protoproject := false |}])].
Proof.
  apply (org_to_ids_result_invariant sample_repr
           [scenario_proto; bitbucket_real; scenario_real; second_proto]
           [("orgA"%string,
             [scenario_project;
              {| display_name := JStr "orgA/w"; key := JStr "p3"; is_protoproject := true |}]);
            ("orgB"%string,
             [{| display_name := JStr "orgB/y"; key := JStr "p2"; is_protoproject := false |}])]).
  reflexivity.
Defined.

Lemma concat_snoc_perm {A : Type} (f : string -> list A) (o : string) (p : A)
    (orgs : list string) :
  NoDup orgs ->
  List.concat (map (fun x => f x ++ (if decide (o = x) then [p] else [])) orgs)
  ≡ₚ List.concat (map f orgs) ++ (if decide (o ∈ orgs) then [p] else []).
Proof.
  induction orgs as [|x orgs IH]; intros Hnd.
  - cbn. rewrite decide_False by apply not_elem_of_nil. reflexivity.
  - apply NoDup_cons in Hnd as [Hx Hnd]. cbn [map List.concat].
    rewrite (IH Hnd). destruct (decide (o = x)) as [->|Hne].
    + rewrite (decide_True (P := x ∈ x :: orgs)) by (apply elem_of_cons; left; reflexivity).
      rewrite (decide_False (P := x ∈ orgs)) by exact Hx. rewrite app_nil_r.
      rewrite <- !app_assoc. apply Permutation_app_head, Permutation_app_comm.
    + rewrite app_nil_r.
      destruct (decide (o ∈ orgs)) as [Hin|Hnot].
      * rewrite (decide_True (P := o ∈ x :: orgs)) by (apply elem_of_cons; right; exact Hin).
        now rewrite app_assoc.
      * rewrite (decide_False (P := o ∈ x :: orgs)) by (rewrite elem_of_cons; tauto).
        now rewrite app_assoc.
Qed.

(** The lists of a grouping, joined, hold the filed projects, each as
    often as it was filed. *)
Lemma concat_grouped_perm (filed : list (string * SimpleProject)) :
  List.concat (grouped filed).*2 ≡ₚ filed.*2.
Proof.
  induction filed as [|[o p] filed IH] using rev_ind; [reflexivity|].
  unfold grouped in *. rewrite <- list_fmap_compose in *.
  rewrite !fmap_app. change ([(o, p)].*1) with [o]. change ([(o, p)].*2) with [p].
  rewrite first_appearances_snoc.
  set (orgs := first_appearances filed.*1) in *.
  assert (Hnd : NoDup orgs) by apply NoDup_first_appearances.
  assert (Hsnoc : forall l : list string,
             (snd ∘ (fun org => (org, projects_of org (filed ++ [(o, p)])))) <$> l =
             map (fun x => projects_of x filed ++ (if decide (o = x) then [p] else [])) l).
  { intros l. apply list_fmap_ext. intros i x _. cbn. apply projects_of_snoc. }
  destruct (decide (o ∈ filed.*1)) as [Hin|Hnot].
  - rewrite Hsnoc, (concat_snoc_perm _ o p orgs Hnd).
    rewrite decide_True by (unfold orgs; now apply elem_of_first_appearances).
    apply Permutation_app_tail. exact IH.
  - rewrite Hsnoc, map_app, concat_app, (concat_snoc_perm _ o p orgs Hnd).
    rewrite decide_False by (unfold orgs; now rewrite elem_of_first_appearances).
    cbn. rewrite decide_True by done.
    rewrite (projects_of_absent o filed Hnot), !app_nil_r. cbn.
    apply Permutation_app_tail. exact IH.
Qed.

(** X4.  On records of a recognised shape nothing is lost and nothing is
    made up: the lists of the returned mapping, joined, hold exactly the
    normalised projects of the kept records, each as often as it is
    kept. *)
Theorem org_to_ids_keeps_every_project (py_repr : json -> string)
    (records : list json) :
  Forall (fun r => recognized_shape r = true /\ slug_names_org r = true) records ->
  exists d,
    org_to_ids py_repr records = Ret d
    /\ List.concat d.*2 ≡ₚ (omap normalized records).*2.
Proof.
  intros Hall. exists (grouped (omap normalized records)). split.
  - unfold org_to_ids. change no_locals with (locals_of []).
    rewrite (org_to_ids_loop_normalized py_repr records [] Hall).
    now rewrite snapshot_locals_of.
  - apply concat_grouped_perm.
Qed.

Lemma org_to_ids_keeps_every_project_witness :
  exists d,
    org_to_ids sample_repr [scenario_proto; scenario_real; bitbucket_proto; second_proto] = Ret d
    /\ List.concat d.*2 ≡ₚ
       [scenario_project;
        {| display_name := JStr "orgB/y"; key := JStr "p2"; is_protoproject := false |};
        {| display_name := JStr "orgA/w"; key := JStr "p3"; is_protoproject := true |}].
Proof.
  apply (org_to_ids_keeps_every_project sample_repr
           [scenario_proto; scenario_real; bitbucket_proto; second_proto]).
  repeat constructor.
Defined.

Section RecordByRecord.

Variable py_repr : json -> string.

Lemma org_to_ids_loop_returns_inv (records : list json) : forall st : locals,
  (for_each records (org_to_ids_body py_repr) st).1 = Ret tt ->
  Forall (fun r => exists d, org_to_ids py_repr [r] = Ret d) records.
Proof.
  induction records as [|r records IH]; intros st Hrun; [constructor|].
  cbn [for_each] in Hrun. unfold bind in Hrun.
  destruct (org_to_ids py_repr [r]) as [d|e] eqn:Hr.
  - constructor; [eauto|].
    destruct (org_to_ids_body py_repr r st) as [[[]|e] st']; [|discriminate].
    exact (IH st' Hrun).
  - rewrite (org_to_ids_body_alone_raises py_repr r e Hr st) in Hrun. discriminate.
Qed.

End RecordByRecord.

(** X5.  Whether a batch fails is decided record by record: [org_to_ids]
    returns a mapping exactly when each record alone goes through, and
    otherwise it raises what the first record that fails alone raises. *)
Theorem org_to_ids_record_by_record (py_repr : json -> string) :
  (forall records : list json,
      (exists d, org_to_ids py_repr records = Ret d)
      <-> Forall (fun r => exists d, org_to_ids py_repr [r] = Ret d) records)
  /\ (forall (before after : list json) (r : json) (e : exn),
        Forall (fun r => exists d, org_to_ids py_repr [r] = Ret d) before ->
        org_to_ids py_repr [r] = Raise e ->
        org_to_ids py_repr (before ++ r :: after) = Raise e).
Proof.
  split.
  - intros records. split.
    + intros [d Hd]. apply (org_to_ids_loop_returns_inv py_repr records no_locals).
      unfold org_to_ids in Hd.
      destruct (for_each records (org_to_ids_body py_repr) no_locals) as [[[]|e] st];
        [reflexivity|discriminate].
    + intros Hall. unfold org_to_ids.
      pose proof (org_to_ids_loop_returns py_repr records no_locals Hall) as Hrun.
      destruct (for_each records (org_to_ids_body py_repr) no_locals) as [[[]|e] st];
        [eauto|discriminate].
  - intros before after r e Hall Hr. unfold org_to_ids. rewrite for_each_app.
    pose proof (org_to_ids_loop_returns py_repr before no_locals Hall) as Hrun.
    destruct (for_each before (org_to_ids_body py_repr) no_locals) as [[[]|e'] st];
      [|discriminate].
    cbn [for_each]. unfold bind.
    now rewrite (org_to_ids_body_alone_raises py_repr r e Hr st).
Qed.

Lemma org_to_ids_record_by_record_witness :
  (exists d, org_to_ids sample_repr [scenario_proto; bitbucket_real; scenario_real] = Ret d)
  /\ org_to_ids sample_repr ([scenario_proto; scenario_real] ++ slugless_real :: [shapeless]) =
     Raise IndexError.
Proof.
  destruct (org_to_ids_record_by_record sample_repr) as [Hiff Hfirst].
  split.
  - apply Hiff. repeat constructor; eexists; reflexivity.
  - apply Hfirst; [|reflexivity]. repeat constructor; eexists; reflexivity.
Defined.

Lemma split_on_no_slash (s : string) :
  is_substring "/" s = false -> split_on slash s = [s].
Proof.
  induction s as [|c s IH]; intros Hno; [reflexivity|].
  cbn [is_substring String.prefix] in Hno.
  apply orb_false_iff in Hno as [Hc Hs].
  cbn [split_on]. destruct (decide (c = slash)) as [->|Hne].
  - exfalso. cbn in Hc. destruct s; discriminate.
  - now rewrite (IH Hs).
Qed.

(** X6.  What a record that lacks something raises when it is the only
    one: a protoproject without [cloneUrl] the [KeyError] of that key; a
    realProject whose list is empty [IndexError]; a realProject of the
    supported provider whose slug is a text without [/] [IndexError]. *)
Theorem org_to_ids_missing_fields (py_repr : json -> string) :
  (forall (o p : list (string * json)),
      dict_get "protoproject" o = Some (JObj p) ->
      dict_get "cloneUrl" p = None ->
      org_to_ids py_repr [JObj o] = Raise (KeyError (JStr "cloneUrl")))
  /\ (forall o : list (string * json),
        dict_get "protoproject" o = None ->
        dict_get "realProject" o = Some (JList []) ->
        org_to_ids py_repr [JObj o] = Raise IndexError)
  /\ (forall (o p : list (string * json)) (rest : list json) (slug : string),
        dict_get "protoproject" o = None ->
        dict_get "realProject" o = Some (JList (JObj p :: rest)) ->
        dict_get "repoProvider" p = Some (JStr "github_apps") ->
        dict_get "slug" p = Some (JStr slug) ->
        is_substring "/" slug = false ->
        org_to_ids py_repr [JObj o] = Raise IndexError).
Proof.
  split; [|split].
  - intros o p Hproto Hurl. unfold org_to_ids. cbn [for_each].
    unfold org_to_ids_body.
    unfold bind, lift, ret, raise, py_contains, dict_contains, py_getitem.
    rewrite Hproto. cbv beta iota. now rewrite Hurl.
  - intros o Hproto Hreal. unfold org_to_ids. cbn [for_each].
    unfold org_to_ids_body.
    unfold bind, lift, ret, raise, py_contains, dict_contains, py_getitem.
    rewrite Hproto. cbv beta iota. now rewrite Hreal.
  - intros o p rest slug Hproto Hreal Htag Hslug Hno. unfold org_to_ids. cbn [for_each].
    unfold org_to_ids_body.
    unfold bind, lift, ret, raise, py_contains, dict_contains, py_getitem.
    rewrite Hproto. cbv beta iota. rewrite Hreal. cbv beta iota. cbn [py_first].
    cbv beta iota. rewrite Htag. cbv beta iota. cbn [py_eq_str].
    rewrite bool_decide_eq_true_2 by reflexivity. cbn [negb]. cbv beta iota.
    rewrite Hslug. cbv beta iota. cbn [py_str].
    now rewrite (split_on_no_slash slug Hno).
Qed.

Lemma org_to_ids_missing_fields_witness :
  org_to_ids sample_repr [JObj [("protoproject"%string, JObj [("key"%string, JStr "p1")])]] =
    Raise (KeyError (JStr "cloneUrl"))
  /\ org_to_ids sample_repr [JObj [("realProject"%string, JList [])]] = Raise IndexError
  /\ org_to_ids sample_repr [slugless_real] = Raise IndexError.
Proof.
  destruct (org_to_ids_missing_fields sample_repr) as (Hurl & Hempty & Hslug).
  split; [|split].
  - eapply Hurl; reflexivity.
  - apply Hempty; reflexivity.
  - eapply Hslug; reflexivity.
Defined.

(** ** GET and POST, answer by answer *)

Section Answers.

Variable py_repr : json -> string.
Variable network : trace -> res Response.
Variable self : LGTMSite.

(** A POST answered at once with a JSON object that reports success. *)
Lemma make_lgtm_post_answered (url : string) (data : dict json) (tr : trace)
    (r : Response) (o : list (string * json)) (status : json) :
  let sent := [Printed (py_str py_repr (JObj data));
               HttpPost url (dict_merge [("apiVersion"%string, JStr (api_version self))] data)
                 (_cookies self) (_headers self)] in
  network (tr ++ sent) = Ret r ->
  json_body r = Some (JObj o) ->
  dict_get "status" o = Some status ->
  py_eq_str status "success" = true ->
  _make_lgtm_post py_repr network self url data tr =
  (Ret (default (JObj []) (dict_get "data" o)),
   tr ++ sent ++ [Printed (py_str py_repr (JObj o))]).
Proof.
  intros sent Hnet Hbody Hstatus Hok. unfold _make_lgtm_post.
  unfold bind at 1. unfold print at 1. unfold bind at 1.
  erewrite resilient_returns; cycle 1.
  { unfold requests_post. cbn zeta. rewrite <- app_assoc. cbn [app].
    fold sent. rewrite Hnet. reflexivity. }
  unfold bind, try_except, response_json, print, lift. rewrite Hbody.
  unfold ret. cbn [py_getitem py_contains]. rewrite Hstatus, Hok.
  unfold dict_contains. rewrite <- !app_assoc.
  destruct (dict_get "data" o); reflexivity.
Qed.

(** A GET of the project listing answered at once with a JSON object. *)
Lemma get_my_projects_answered (tr : trace) (r : Response) (o : list (string * json)) :
  let sent := [HttpGet (getMyProjects_url self) (_cookies self) (_headers self)] in
  network (tr ++ sent) = Ret r ->
  json_body r = Some (JObj o) ->
  get_my_projects py_repr network self tr =
  (match dict_get "status" o with
   | None => Raise (KeyError (JStr "status"))
   | Some status =>
       if py_eq_str status "success" then
         match dict_get "data" o with
         | Some data => Ret data
         | None => Raise (KeyError (JStr "data"))
         end
       else Raise (LGTMRequestException
                     ("LGTM GET request failed with response: " +:+ py_str py_repr (JObj o))
                     None)
   end,
   tr ++ sent).
Proof.
  intros sent Hnet Hbody. unfold get_my_projects, _make_lgtm_get.
  unfold bind at 1. unfold bind at 1.
  erewrite resilient_returns; cycle 1.
  { unfold requests_get. cbn zeta. fold sent. rewrite Hnet. reflexivity. }
  unfold response_json. rewrite Hbody. unfold ret, bind, lift, raise.
  cbn [py_getitem].
  destruct (dict_get "status" o) as [status|]; [|reflexivity].
  destruct (py_eq_str status "success"); [|reflexivity].
  destruct (dict_get "data" o); reflexivity.
Qed.

End Answers.

(** X8.  When the listing is answered at once with a JSON object,
    [get_my_projects] has sent one GET, with the session cookies and the
    nonce, and its result is read off the object: its [data] when the
    [status] is success, a request failure carrying the object when it is
    not, and the [KeyError] of [status] or of [data] when that key is not
    there. *)
Theorem get_my_projects_by_answer (py_repr : json -> string)
    (network : trace -> res Response) (self : LGTMSite) (tr : trace)
    (r : Response) (o : list (string * json)) :
  network (tr ++ [HttpGet (getMyProjects_url self)
                    [("lgtm_long_session"%string, long_session self);
                     ("lgtm_short_session"%string, short_session self)]
                    [("LGTM-Nonce"%string, nonce self)]]) = Ret r ->
  json_body r = Some (JObj o) ->
  get_my_projects py_repr network self tr =
  (match dict_get "status" o with
   | None => Raise (KeyError (JStr "status"))
   | Some status =>
       if py_eq_str status "success" then
         match dict_get "data" o with
         | Some data => Ret data
         | None => Raise (KeyError (JStr "data"))
         end
       else Raise (LGTMRequestException
                     ("LGTM GET request failed with response: " +:+ py_str py_repr (JObj o))
                     None)
   end,
   tr ++ [HttpGet (getMyProjects_url self)
            [("lgtm_long_session"%string, long_session self);
             ("lgtm_short_session"%string, short_session self)]
            [("LGTM-Nonce"%string, nonce self)]]).
Proof. apply get_my_projects_answered. Qed.

Lemma get_my_projects_by_answer_witness :
  get_my_projects sample_repr batch_network sample_site [] =
  (Ret (JList [scenario_proto; scenario_real; second_proto]),
   [HttpGet "https://lgtm.com/internal_api/v0.2/getMyProjects?apiVersion=5b0cb1a"
      [("lgtm_long_session"%string, "long"%string);
       ("lgtm_short_session"%string, "short"%string)]
      [("LGTM-Nonce"%string, "n0"%string)]]).
Proof.
  apply (get_my_projects_by_answer sample_repr batch_network sample_site []
           listing_response
           [("status"%string, JStr "success");
            ("data"%string, JList [scenario_proto; scenario_real; second_proto])]);
    reflexivity.
Defined.

(** X9.  A POST answered with a body that is not JSON ends, after that
    one request, in an [LGTMRequestException] whose message carries the
    text of the body and whose cause is the [ValueError] of [r.json()]. *)
Theorem make_lgtm_post_not_json (py_repr : json -> string)
    (network : trace -> res Response) (self : LGTMSite)
    (url : string) (data : dict json) (tr : trace) (r : Response) :
  network (tr ++ [Printed (py_str py_repr (JObj data));
                  HttpPost url
                    (dict_merge [("apiVersion"%string, JStr (api_version self))] data)
                    (_cookies self) (_headers self)]) = Ret r ->
  json_body r = None ->
  _make_lgtm_post py_repr network self url data tr =
  (Raise (LGTMRequestException ("Failed to parse JSON. Response was: " +:+ text r)
            (Some (ValueError "JSONDecodeError"))),
   tr ++ [Printed (py_str py_repr (JObj data));
          HttpPost url
            (dict_merge [("apiVersion"%string, JStr (api_version self))] data)
            (_cookies self) (_headers self)]).
Proof. apply make_lgtm_post_unparseable_body. Qed.

Lemma make_lgtm_post_not_json_witness :
  (_make_lgtm_post sample_repr html_network sample_site
     "https://lgtm.com/internal_api/v0.2/followProject"
     [("url"%string, JStr "https://github.com/orgA/x")] []).1 =
  Raise (LGTMRequestException
           "Failed to parse JSON. Response was: <html>502 Bad Gateway</html>"
           (Some (ValueError "JSONDecodeError"))).
Proof.
  rewrite (make_lgtm_post_not_json sample_repr html_network sample_site
             "https://lgtm.com/internal_api/v0.2/followProject"
             [("url"%string, JStr "https://github.com/orgA/x")] []
             {| text := "<html>502 Bad Gateway</html>"; json_body := None |});
    reflexivity.
Defined.

(** X10.  A POST answered at once with a JSON object gives, after that
    one request: the object's [data] when the [status] is success, and
    the empty dict when it has no [data]; a request failure carrying the
    object when the [status] is something else; the [KeyError] of
    [status] when there is none. *)
Theorem make_lgtm_post_by_answer (py_repr : json -> string)
    (network : trace -> res Response) (self : LGTMSite)
    (url : string) (data : dict json) (tr : trace)
    (r : Response) (o : list (string * json)) :
  network (tr ++ [Printed (py_str py_repr (JObj data));
                  HttpPost url
                    (dict_merge [("apiVersion"%string, JStr (api_version self))] data)
                    (_cookies self) (_headers self)]) = Ret r ->
  json_body r = Some (JObj o) ->
  _make_lgtm_post py_repr network self url data tr =
  (match dict_get "status" o with
   | None => Raise (KeyError (JStr "status"))
   | Some status =>
       if py_eq_str status "success" then
         match dict_get "data" o with
         | Some returned => Ret returned
         | None => Ret (JObj [])
         end
       else Raise (LGTMRequestException
                     ("LGTM POST request failed with response: " +:+ py_str py_repr (JObj o))
                     None)
   end,
   tr ++ [Printed (py_str py_repr (JObj data));
          HttpPost url
            (dict_merge [("apiVersion"%string, JStr (api_version self))] data)
            (_cookies self) (_headers self);
          Printed (py_str py_repr (JObj o))]).
Proof.
  intros Hnet Hbody.
  destruct (dict_get "status" o) as [status|] eqn:Hstatus.
  - destruct (py_eq_str status "success") eqn:Hok.
    + rewrite (make_lgtm_post_answered py_repr network self url data tr r o status
                 Hnet Hbody Hstatus Hok).
      destruct (dict_get "data" o); reflexivity.
    + rewrite (make_lgtm_post_status_not_success py_repr network self url data tr r
                 (JObj o) status Hnet Hbody); [reflexivity| |exact Hok].
      cbn [py_getitem]. now rewrite Hstatus.
  - unfold _make_lgtm_post.
    unfold bind at 1. unfold print at 1. unfold bind at 1.
    erewrite resilient_returns; cycle 1.
    { unfold requests_post. cbn zeta. rewrite <- app_assoc. cbn [app].
      rewrite Hnet. reflexivity. }
    unfold bind, try_except, response_json, print, lift. rewrite Hbody.
    unfold ret. cbn [py_getitem]. rewrite Hstatus. now rewrite <- !app_assoc.
Qed.

Lemma make_lgtm_post_by_answer_witness :
  (_make_lgtm_post sample_repr success_network sample_site
     "https://lgtm.com/internal_api/v0.2/unfollowProject"
     [("project_key"%string, JStr "p2")] []).1 = Ret (JObj []).
Proof.
  rewrite (make_lgtm_post_by_answer sample_repr success_network sample_site
             "https://lgtm.com/internal_api/v0.2/unfollowProject"
             [("project_key"%string, JStr "p2")] [] sample_response
             [("status"%string, JStr "success")]);
    reflexivity.
Defined.





(** ** The operations of the session client *)

(** X11.  [follow_repository] puts one request on the wire, between one
    and five times: the POST to [followProject] whose form holds the API
    version once and the URL of the repository. *)
Theorem follow_repository_wire (py_repr : json -> string)
    (network : trace -> res Response) (self : LGTMSite)
    (repository_url : string) (tr : trace) :
  exists n : nat,
    (1 <= n <= 5)%nat
    /\ requests_of (follow_repository py_repr network self repository_url tr).2 =
       requests_of tr
       ++ replicate n
            (HttpPost "https://lgtm.com/internal_api/v0.2/followProject"
               [("apiVersion"%string, JStr (api_version self));
                ("url"%string, JStr repository_url)]
               (_cookies self) (_headers self)).
Proof.
  unfold follow_repository.
  match goal with |- context [_make_lgtm_post py_repr network self ?u ?d] =>
    destruct (make_lgtm_post_run py_repr network self u d tr) as (n & Hn & Hreq & _);
    exists n; split; [exact Hn|];
    unfold bind; destruct (_make_lgtm_post py_repr network self u d tr) as [[j|e] tr']
  end; exact Hreq.
Qed.

Lemma unfollow_repository_requests (py_repr : json -> string)
    (network : trace -> res Response) (self : LGTMSite)
    (p : SimpleProject) (tr : trace) :
  exists n : nat,
    (1 <= n <= 5)%nat
    /\ requests_of (unfollow_repository py_repr network self p tr).2 =
       requests_of tr ++ replicate n (unfollow_request self p).
Proof.
  unfold unfollow_repository, unfollow_request, make_post_data.
  destruct (is_protoproject p); cbn [negb];
    match goal with |- context [_make_lgtm_post py_repr network self ?u ?d] =>
      destruct (make_lgtm_post_run py_repr network self u d tr) as (n & Hn & Hreq & _);
      exists n; split; [exact Hn|];
      unfold bind; destruct (_make_lgtm_post py_repr network self u d tr) as [[j|e] tr']
    end; exact Hreq.
Qed.

(** X12.  [unfollow_repository] sends one request, between one and five
    times: for a protoproject the POST to [unfollowProtoproject] with its
    key as [protoproject_key], for any other project the POST to
    [unfollowProject] with its key as [project_key]; and for a project
    that is no protoproject it does what [unfollow_repository_by_id] does
    with its key. *)
Theorem unfollow_repository_wire (py_repr : json -> string)
    (network : trace -> res Response) (self : LGTMSite)
    (p : SimpleProject) (tr : trace) :
  (exists n : nat,
      (1 <= n <= 5)%nat
      /\ requests_of (unfollow_repository py_repr network self p tr).2 =
         requests_of tr ++ replicate n (unfollow_request self p))
  /\ (forall project_id : string,
        is_protoproject p = false ->
        key p = JStr project_id ->
        unfollow_repository py_repr network self p tr =
        unfollow_repository_by_id py_repr network self project_id tr).
Proof.
  split; [apply unfollow_repository_requests|].
  - intros project_id Hp Hkey.
    unfold unfollow_repository, unfollow_repository_by_id, make_post_data.
    now rewrite Hp, Hkey.
Qed.

Lemma unfollow_repository_wire_witness :
  unfollow_repository sample_repr success_network sample_site
    {| display_name := JStr "orgB/y"; key := JStr "p2"; is_protoproject := false |} [] =
  unfollow_repository_by_id sample_repr success_network sample_site "p2" [].
Proof.
  destruct (unfollow_repository_wire sample_repr success_network sample_site
              {| display_name := JStr "orgB/y"; key := JStr "p2"; is_protoproject := false |} [])
    as [_ Hsame].
  apply Hsame; reflexivity.
Defined.

Section UnfollowLoop.

Variable py_repr : json -> string.
Variable network : trace -> res Response.
Variable self : LGTMSite.
Variable include_protoproject : bool.


End UnfollowLoop.



Section ProjectLists.

Variable py_repr : json -> string.
Variable network : trace -> res Response.
Variable int_of : json -> res Z.

Lemma find_project_list_skips {St : Type} (list_name : string)
    (before rest : list json) (s : St) :
  Forall (fun e => other_name list_name e = true) before ->
  find_project_list int_of list_name (before ++ rest) s =
  find_project_list int_of list_name rest s.
Proof.
  induction before as [|e before IH]; intros Hall; [reflexivity|].
  apply Forall_cons in Hall as [He Hall].
  cbn [app find_project_list]. unfold bind at 1, lift at 1.
  unfold other_name in He.
  destruct e as [| | | | | |o]; try discriminate. cbn [py_getitem].
  destruct (dict_get "name" o) as [name|]; [|discriminate].
  apply negb_true_iff in He. rewrite He. now apply IH.
Qed.

Lemma find_project_list_match {St : Type} (list_name : string)
    (o : list (string * json)) (after : list json) (k : json) (n : Z) (s : St) :
  dict_get "name" o = Some (JStr list_name) ->
  dict_get "key" o = Some k ->
  py_int int_of k = Ret n ->
  find_project_list int_of list_name (JObj o :: after) s = (Ret (Some n), s).
Proof.
  intros Hname Hkey Hint. cbn [find_project_list].
  unfold bind, lift, ret. cbn [py_getitem]. rewrite Hname. cbn [py_eq_str].
  rewrite bool_decide_eq_true_2 by reflexivity. now rewrite Hkey, Hint.
Qed.

End ProjectLists.

(** X14.  [get_project_list_by_name] gives the key, as an [int], of the
    first list whose name is the one asked for, whatever follows it; and
    [None] when every list has another name, or when the answer held no
    data at all. *)
Theorem get_project_list_by_name_first_match (py_repr : json -> string)
    (network : trace -> res Response) (int_of : json -> res Z) (self : LGTMSite)
    (list_name : string) (tr tr1 : trace) :
  (forall (before after : list json) (o : list (string * json)) (k : json) (n : Z),
      get_project_lists py_repr network self tr =
        (Ret (JList (before ++ JObj o :: after)), tr1) ->
      Forall (fun e => other_name list_name e = true) before ->
      dict_get "name" o = Some (JStr list_name) ->
      dict_get "key" o = Some k ->
      py_int int_of k = Ret n ->
      get_project_list_by_name py_repr network int_of self list_name tr =
      (Ret (Some n), tr1))
  /\ (forall items : list json,
        get_project_lists py_repr network self tr = (Ret (JList items), tr1) ->
        Forall (fun e => other_name list_name e = true) items ->
        get_project_list_by_name py_repr network int_of self list_name tr =
        (Ret None, tr1))
  /\ (get_project_lists py_repr network self tr = (Ret (JObj []), tr1) ->
      get_project_list_by_name py_repr network int_of self list_name tr =
      (Ret None, tr1)).
Proof.
  split; [|split].
  - intros before after o k n Hlists Hother Hname Hkey Hint.
    unfold get_project_list_by_name, bind, lift. rewrite Hlists. cbn [py_iter].
    rewrite find_project_list_skips by exact Hother.
    now apply find_project_list_match with (k := k).
  - intros items Hlists Hother.
    unfold get_project_list_by_name, bind, lift. rewrite Hlists. cbn [py_iter].
    rewrite <- (app_nil_r items), find_project_list_skips by exact Hother.
    reflexivity.
  - intros Hlists.
    unfold get_project_list_by_name, bind, lift. rewrite Hlists. reflexivity.
Qed.

Lemma get_project_list_by_name_first_match_witness :
  get_project_list_by_name sample_repr lists_network sample_int_of sample_site "beta" [] =
  (Ret (Some 12),
   [Printed "<repr>";
    HttpPost "https://lgtm.com/internal_api/v0.2/getUsedProjectSelections"
      [("apiVersion"%string, JStr "5b0cb1a")]
      (_cookies sample_site) (_headers sample_site);
    Printed "<repr>"]).
Proof.
  destruct (get_project_list_by_name_first_match sample_repr lists_network sample_int_of
              sample_site "beta" []
              [Printed "<repr>";
               HttpPost "https://lgtm.com/internal_api/v0.2/getUsedProjectSelections"
                 [("apiVersion"%string, JStr "5b0cb1a")]
                 (_cookies sample_site) (_headers sample_site);
               Printed "<repr>"]) as [Hfirst _].
  apply (Hfirst [JObj [("name"%string, JStr "alpha"); ("key"%string, JInt 11)]]
                [JObj [("name"%string, JStr "alpha"); ("key"%string, JInt 13)]]
                [("name"%string, JStr "beta"); ("key"%string, JInt 12)]
                (JInt 12) 12);
    try reflexivity.
  repeat constructor.
Defined.

(** X15.  [get_or_create_project_list] creates nothing when a list of
    that name is there: it returns the key of the first one and, after
    the listing, only prints; when every list has another name it prints
    and goes on as [create_project_list] does. *)
Theorem get_or_create_project_list_found (py_repr : json -> string)
    (network : trace -> res Response) (int_of : json -> res Z) (self : LGTMSite)
    (list_name : string) (tr tr1 : trace) :
  (forall (before after : list json) (o : list (string * json)) (k : json) (n : Z),
      get_project_lists py_repr network self tr =
        (Ret (JList (before ++ JObj o :: after)), tr1) ->
      Forall (fun e => other_name list_name e = true) before ->
      dict_get "name" o = Some (JStr list_name) ->
      dict_get "key" o = Some k ->
      py_int int_of k = Ret n ->
      get_or_create_project_list py_repr network int_of self list_name tr =
      (Ret n, tr1 ++ [Printed ("Found Project List with name: " +:+ list_name)]))
  /\ (forall items : list json,
        get_project_lists py_repr network self tr = (Ret (JList items), tr1) ->
        Forall (fun e => other_name list_name e = true) items ->
        get_or_create_project_list py_repr network int_of self list_name tr =
        create_project_list py_repr network int_of self list_name
          (tr1 ++ [Printed ("Creating Project List with name: " +:+ list_name)])).
Proof.
  split.
  - intros before after o k n Hlists Hother Hname Hkey Hint.
    unfold get_or_create_project_list, bind.
    assert (Hfound : get_project_list_by_name py_repr network int_of self list_name tr =
                     (Ret (Some n), tr1)).
    { unfold get_project_list_by_name, bind, lift. rewrite Hlists. cbn [py_iter].
      rewrite (find_project_list_skips int_of) by exact Hother.
      now apply find_project_list_match with (k := k). }
    now rewrite Hfound.
  - intros items Hlists Hother.
    unfold get_or_create_project_list. unfold bind at 1.
    assert (Hnone : get_project_list_by_name py_repr network int_of self list_name tr =
                    (Ret None, tr1)).
    { unfold get_project_list_by_name, bind, lift. rewrite Hlists. cbn [py_iter].
      rewrite <- (app_nil_r items), (find_project_list_skips int_of) by exact Hother.
      reflexivity. }
    rewrite Hnone. reflexivity.
Qed.

Lemma get_or_create_project_list_found_witness :
  get_or_create_project_list sample_repr lists_network sample_int_of sample_site "alpha" [] =
  (Ret 11,
   [Printed "<repr>";
    HttpPost "https://lgtm.com/internal_api/v0.2/getUsedProjectSelections"
      [("apiVersion"%string, JStr "5b0cb1a")]
      (_cookies sample_site) (_headers sample_site);
    Printed "<repr>"]
   ++ [Printed "Found Project List with name: alpha"]).
Proof.
  destruct (get_or_create_project_list_found sample_repr lists_network sample_int_of
              sample_site "alpha" []
              [Printed "<repr>";
               HttpPost "https://lgtm.com/internal_api/v0.2/getUsedProjectSelections"
                 [("apiVersion"%string, JStr "5b0cb1a")]
                 (_cookies sample_site) (_headers sample_site);
               Printed "<repr>"]) as [Hfound _].
  apply (Hfound []
                [JObj [("name"%string, JStr "beta"); ("key"%string, JInt 12)];
                 JObj [("name"%string, JStr "alpha"); ("key"%string, JInt 13)]]
                [("name"%string, JStr "alpha"); ("key"%string, JInt 11)]
                (JInt 11) 11);
    try reflexivity.
  constructor.
Defined.

(** X16.  [create_project_list], its POST answered at once with success,
    has sent the name under the API version and gives the [int] of the
    [key] of the answer's data; an answer without data raises the
    [KeyError] of [key]. *)
Theorem create_project_list_by_answer (py_repr : json -> string)
    (network : trace -> res Response) (int_of : json -> res Z) (self : LGTMSite)
    (name : string) (tr : trace) (r : Response) (o : list (string * json))
    (status : json) :
  network (tr ++ [Printed (py_str py_repr (JObj [("name"%string, JStr name)]));
                  HttpPost "https://lgtm.com/internal_api/v0.2/createProjectSelection"
                    [("apiVersion"%string, JStr (api_version self));
                     ("name"%string, JStr name)]
                    (_cookies self) (_headers self)]) = Ret r ->
  json_body r = Some (JObj o) ->
  dict_get "status" o = Some status ->
  py_eq_str status "success" = true ->
  create_project_list py_repr network int_of self name tr =
  (match dict_get "data" o with
   | None => Raise (KeyError (JStr "key"))
   | Some returned =>
       match py_getitem returned "key" with
       | Ret k => py_int int_of k
       | Raise e => Raise e
       end
   end,
   tr ++ [Printed (py_str py_repr (JObj [("name"%string, JStr name)]));
          HttpPost "https://lgtm.com/internal_api/v0.2/createProjectSelection"
            [("apiVersion"%string, JStr (api_version self));
             ("name"%string, JStr name)]
            (_cookies self) (_headers self);
          Printed (py_str py_repr (JObj o))]).
Proof.
  intros Hnet Hbody Hstatus Hok. unfold create_project_list. unfold bind at 1.
  rewrite (make_lgtm_post_answered py_repr network self createProjectSelection_url
             [("name"%string, JStr name)] tr r o status Hnet Hbody Hstatus Hok).
  unfold bind, lift.
  destruct (dict_get "data" o) as [returned|]; cbn [default from_option id].
  - destruct (py_getitem returned "key"); reflexivity.
  - reflexivity.
Qed.

Lemma create_project_list_by_answer_witness :
  (create_project_list sample_repr created_network sample_int_of sample_site "gamma" []).1 = Ret 7
  /\ (create_project_list sample_repr success_network sample_int_of sample_site "gamma" []).1 =
     Raise (KeyError (JStr "key")).
Proof.
  split.
  - rewrite (create_project_list_by_answer sample_repr created_network sample_int_of
               sample_site "gamma" []
               {| text := EmptyString;
                  json_body := Some (JObj [("status"%string, JStr "success");
                                           ("data"%string, JObj [("key"%string, JInt 7)])]) |}
               [("status"%string, JStr "success");
                ("data"%string, JObj [("key"%string, JInt 7)])]
               (JStr "success")); reflexivity.
  - rewrite (create_project_list_by_answer sample_repr success_network sample_int_of
               sample_site "gamma" [] sample_response
               [("status"%string, JStr "success")] (JStr "success")); reflexivity.
Defined.

Lemma collect_ids_run (py_repr : json -> string) (projects : list SimpleProject) :
  forall (ids : list json) (tr : trace),
    (collect_ids py_repr projects ids tr).1 = Ret (ids ++ map key projects)
    /\ requests_of (collect_ids py_repr projects ids tr).2 = requests_of tr.
Proof.
  induction projects as [|p projects IH]; intros ids tr.
  - cbn. now rewrite app_nil_r.
  - cbn [collect_ids map]. unfold bind, print.
    destruct (IH (ids ++ [key p])
                 (tr ++ [Printed ("Adding `" +:+ py_str py_repr (display_name p)
                                  +:+ "` project to project list")]))
      as [Hids Hreq].
    rewrite Hids, Hreq, requests_of_printed, <- app_assoc. auto.
Qed.

(** X17.  After the listing, [add_org_to_project_list_by_list_key] sends
    one request, between one and five times: the POST that adds the keys
    of the organisation's projects, in their order, to the selection.  It
    is sent also when the organisation has no project: the value of
    [addedProjects] is then [[]]. *)
Theorem add_org_to_project_list_by_list_key_wire (py_repr : json -> string)
    (network : trace -> res Response) (self : LGTMSite) (org : string)
    (project_list_key : Z) (tr tr1 : trace) (projects : list SimpleProject) :
  get_my_projects_under_org py_repr network self org tr = (Ret projects, tr1) ->
  exists n : nat,
    (1 <= n <= 5)%nat
    /\ requests_of
         (add_org_to_project_list_by_list_key py_repr network self org project_list_key tr).2 =
       requests_of tr1
       ++ replicate n
            (HttpPost "https://lgtm.com/internal_api/v0.2/updateProjectSelection"
               [("apiVersion"%string, JStr (api_version self));
                ("projectSelectionId"%string, JInt project_list_key);
                ("addedProjects"%string,
                 JStr ("[" +:+ join ", " (map (fun p => dquote +:+ py_str py_repr (key p) +:+ dquote)
                                            projects) +:+ "]"));
                ("removedProjects"%string, JStr "[]")]
               (_cookies self) (_headers self)).
Proof.
  intros Hlist.
  destruct (collect_ids_run py_repr projects [] tr1) as [Hids Hreq].
  assert (Hrun : add_org_to_project_list_by_list_key py_repr network self org project_list_key tr =
                 load_into_project_list py_repr network self project_list_key (map key projects)
                   (collect_ids py_repr projects [] tr1).2).
  { unfold add_org_to_project_list_by_list_key. unfold bind at 1. rewrite Hlist.
    unfold bind at 1.
    destruct (collect_ids py_repr projects [] tr1) as [res tr2].
    cbn [fst snd] in Hids |- *. now rewrite Hids. }
  rewrite Hrun. unfold load_into_project_list, list_serialized.
  rewrite <- Hreq, map_map.
  set (tr2 := (collect_ids py_repr projects [] tr1).2).
  match goal with |- context [_make_lgtm_post py_repr network self ?u ?d] =>
    destruct (make_lgtm_post_run py_repr network self u d tr2) as (n & Hn & Hsent & _);
    exists n; split; [exact Hn|];
    unfold bind; destruct (_make_lgtm_post py_repr network self u d tr2) as [[j|e] tr']
  end; exact Hsent.
Qed.

Lemma add_org_to_project_list_by_list_key_wire_witness :
  exists n : nat,
    (1 <= n <= 5)%nat
    /\ requests_of
         (add_org_to_project_list_by_list_key sample_repr batch_network sample_site
            "orgZ" 5 []).2 =
       requests_of
         [HttpGet (getMyProjects_url sample_site) (_cookies sample_site) (_headers sample_site);
          Printed "org orgZ not found in projects list"]
       ++ replicate n
            (HttpPost "https://lgtm.com/internal_api/v0.2/updateProjectSelection"
               [("apiVersion"%string, JStr "5b0cb1a");
                ("projectSelectionId"%string, JInt 5);
                ("addedProjects"%string, JStr "[]");
                ("removedProjects"%string, JStr "[]")]
               (_cookies sample_site) (_headers sample_site)).
Proof.
  apply (add_org_to_project_list_by_list_key_wire sample_repr batch_network sample_site
           "orgZ" 5 [] _ []).
  reflexivity.
Defined.

(** X18.  [retrieve_project_id], its GET answered at once with a JSON
    object, has sent one request without cookies and without headers; it
    gives [None] when the object has no [id] and the [int] of the [id]
    when it has one. *)
Theorem retrieve_project_id_by_answer (network : trace -> res Response)
    (int_of : json -> res Z) (gh_project_path : string) (tr : trace)
    (r : Response) (o : list (string * json)) :
  network (tr ++ [HttpGet ("https://lgtm.com/api/v1.0/projects/g/" +:+ gh_project_path)
                    [] []]) = Ret r ->
  json_body r = Some (JObj o) ->
  retrieve_project_id network int_of gh_project_path tr =
  (match dict_get "id" o with
   | None => Ret None
   | Some id =>
       match py_int int_of id with
       | Ret n => Ret (Some n)
       | Raise e => Raise e
       end
   end,
   tr ++ [HttpGet ("https://lgtm.com/api/v1.0/projects/g/" +:+ gh_project_path) [] []]).
Proof.
  intros Hnet Hbody. unfold retrieve_project_id, retrieve_project.
  unfold bind at 1. unfold bind at 1.
  erewrite resilient_returns; cycle 1.
  { unfold requests_get, retrieve_project_url. cbn zeta. rewrite Hnet. reflexivity. }
  unfold response_json. rewrite Hbody. unfold ret, bind, lift.
  cbn [py_contains py_getitem]. unfold dict_contains.
  destruct (dict_get "id" o) as [id|]; [|reflexivity].
  destruct (py_int int_of id); reflexivity.
Qed.

Lemma retrieve_project_id_by_answer_witness :
  retrieve_project_id id_network sample_int_of "orgA/x" [] =
  (Ret (Some 42), [HttpGet "https://lgtm.com/api/v1.0/projects/g/orgA/x" [] []]).
Proof.
  apply (retrieve_project_id_by_answer id_network sample_int_of "orgA/x" []
           {| text := EmptyString;
              json_body := Some (JObj [("id"%string, JInt 42); ("name"%string, JStr "x")]) |}
           [("id"%string, JInt 42); ("name"%string, JStr "x")]);
    reflexivity.
Defined.

(** ** What goes on the wire *)

Lemma dict_merge_fresh {V : Type} (b : dict V) : forall a : dict V,
  NoDup b.*1 ->
  (forall k, k ∈ b.*1 -> k ∉ a.*1) ->
  dict_merge a b = a ++ b.
Proof.
  unfold dict_merge.
  induction b as [|[k v] b IH]; intros a Hnd Hfresh; cbn [foldl].
  - now rewrite app_nil_r.
  - cbn in Hnd. apply NoDup_cons in Hnd as [Hk Hnd].
    cbn [fst snd]. rewrite dict_set_snoc by (apply Hfresh; cbn; apply elem_of_cons; now left).
    rewrite IH; [now rewrite <- app_assoc|exact Hnd|].
    intros k' Hk'. rewrite fmap_app, elem_of_app. cbn.
    intros [Hin|Hin].
    + apply (Hfresh k'); [cbn; apply elem_of_cons; now right|exact Hin].
    + apply list_elem_of_singleton in Hin. congruence.
Qed.

(** X19.  Whatever the remote end does, [_make_lgtm_post] puts one
    request on the wire, between one and five times, with the session
    cookies and the nonce, and no other; when the caller's data name no
    key twice and have no [apiVersion], the form is the API version
    followed by the data as given. *)
Theorem make_lgtm_post_wire (py_repr : json -> string)
    (network : trace -> res Response) (self : LGTMSite)
    (url : string) (data : dict json) (tr : trace) :
  (exists n : nat,
      (1 <= n <= 5)%nat
      /\ requests_of (_make_lgtm_post py_repr network self url data tr).2 =
         requests_of tr
         ++ replicate n
              (HttpPost url
                 (dict_merge [("apiVersion"%string, JStr (api_version self))] data)
                 [("lgtm_long_session"%string, long_session self);
                  ("lgtm_short_session"%string, short_session self)]
                 [("LGTM-Nonce"%string, nonce self)]))
  /\ (NoDup data.*1 -> "apiVersion"%string ∉ data.*1 ->
      dict_merge [("apiVersion"%string, JStr (api_version self))] data =
      ("apiVersion"%string, JStr (api_version self)) :: data).
Proof.
  split.
  - destruct (make_lgtm_post_run py_repr network self url data tr) as (n & Hn & Hreq & _).
    exists n. split; [exact Hn|exact Hreq].
  - intros Hnd Hfresh. rewrite dict_merge_fresh; [reflexivity|exact Hnd|].
    intros k Hk. cbn. intros Hin. apply list_elem_of_singleton in Hin. congruence.
Qed.

Lemma make_lgtm_post_wire_witness :
  dict_merge [("apiVersion"%string, JStr "5b0cb1a")]
    [("protoproject_key"%string, JStr "p1"); ("config"%string, JStr EmptyString)] =
  [("apiVersion"%string, JStr "5b0cb1a");
   ("protoproject_key"%string, JStr "p1"); ("config"%string, JStr EmptyString)].
Proof.
  destruct (make_lgtm_post_wire sample_repr success_network sample_site
              "https://lgtm.com/internal_api/v0.2/rebuildProtoproject"
              [("protoproject_key"%string, JStr "p1"); ("config"%string, JStr EmptyString)] [])
    as [_ Hform].
  apply Hform.
  - apply (bool_decide_unpack _). vm_compute. exact I.
  - apply (bool_decide_unpack _). vm_compute. exact I.
Defined.

Section GetWire.

Variable network : trace -> res Response.

Lemma requests_get_states url cookies headers (k : nat) : forall tr : trace,
  state_before (requests_get network url cookies headers) k tr =
  tr ++ replicate k (HttpGet url cookies headers).
Proof.
  induction k as [|k IH]; intros tr; simpl.
  - now rewrite app_nil_r.
  - rewrite IH. now rewrite <- app_assoc.
Qed.

Lemma requests_get_outcome url cookies headers (k : nat) (tr : trace) :
  outcome_of_attempt (requests_get network url cookies headers) k tr =
  network (tr ++ replicate (S k) (HttpGet url cookies headers)).
Proof.
  unfold outcome_of_attempt. rewrite requests_get_states.
  unfold requests_get. simpl. rewrite <- app_assoc.
  now rewrite <- replicate_S_end.
Qed.

End GetWire.

(** X20.  Whatever the remote end does, [get_my_projects] puts one
    request on the wire, between one and five times: the GET of the
    listing with the API version in its URL, the session cookies and the
    nonce.  When each of five sends fails in the SSL layer it has sent
    the five and raises the [LGTMRequestException] of the executor. *)
Theorem get_my_projects_wire (py_repr : json -> string)
    (network : trace -> res Response) (self : LGTMSite) (tr : trace) :
  let get :=
    HttpGet ("https://lgtm.com/internal_api/v0.2/getMyProjects?apiVersion="
             +:+ api_version self)
      [("lgtm_long_session"%string, long_session self);
       ("lgtm_short_session"%string, short_session self)]
      [("LGTM-Nonce"%string, nonce self)] in
  (exists n : nat,
      (1 <= n <= 5)%nat
      /\ requests_of (get_my_projects py_repr network self tr).2 =
         requests_of tr ++ replicate n get)
  /\ ((forall k, (k < 5)%nat -> fails_in_ssl (network (tr ++ replicate (S k) get)) = true) ->
      exists e,
        network (tr ++ replicate 5 get) = Raise e
        /\ get_my_projects py_repr network self tr =
           (Raise (LGTMRequestException "SSL Error" (Some e)), tr ++ replicate 5 get)).
Proof.
  intros get.
  set (thunk := requests_get network (getMyProjects_url self) (_cookies self) (_headers self)).
  assert (Hrun : get_my_projects py_repr network self tr =
                 match _resilient_request thunk 0 tr with
                 | (Ret r, tr') =>
                     bind (response_json r)
                       (fun data =>
                          status <~ lift (py_getitem data "status") ;;
                          if py_eq_str status "success" then lift (py_getitem data "data")
                          else raise (LGTMRequestException
                                        ("LGTM GET request failed with response: "
                                         +:+ py_str py_repr data) None)) tr'
                 | (Raise e, tr') => (Raise e, tr')
                 end).
  { unfold get_my_projects, _make_lgtm_get, bind. fold thunk.
    destruct (_resilient_request thunk 0 tr) as [[r|e] tr']; [|reflexivity].
    destruct (response_json r tr') as [[j|e] tr'']; reflexivity. }
  split.
  - destruct (resilient_run thunk 4 0 tr eq_refl) as (k & Hk & Hst & _).
    unfold thunk in Hst. rewrite requests_get_states in Hst. fold thunk in Hst.
    exists (S k). split; [lia|]. rewrite Hrun.
    destruct (_resilient_request thunk 0 tr) as [[r|e] tr']; cbn [fst snd] in Hst; subst tr'.
    + assert (Hsame : forall res tr'',
                 bind (response_json r)
                   (fun data =>
                      status <~ lift (py_getitem data "status") ;;
                      if py_eq_str status "success" then lift (py_getitem data "data")
                      else raise (LGTMRequestException
                                    ("LGTM GET request failed with response: "
                                     +:+ py_str py_repr data) None))
                   (tr ++ replicate (S k) get) = (res, tr'') ->
                 tr'' = tr ++ replicate (S k) get).
      { intros res tr''. unfold bind, response_json, lift, ret, raise.
        destruct (json_body r) as [j|]; [|now intros [= _ <-]].
        destruct (py_getitem j "status") as [status|e]; [|now intros [= _ <-]].
        destruct (py_eq_str status "success"); now intros [= _ <-]. }
      match goal with |- requests_of (?run).2 = _ =>
        destruct run as [res tr''] eqn:Hend end.
      apply Hsame in Hend. subst tr''. cbn [snd].
      rewrite requests_of_app, requests_of_replicate by reflexivity. reflexivity.
    + cbn [snd]. rewrite requests_of_app, requests_of_replicate by reflexivity. reflexivity.
  - intros Hfail.
    destruct (resilient_exhausts thunk tr) as (e & He & Hgave).
    { intros j Hj. unfold thunk. rewrite requests_get_outcome. now apply Hfail. }
    unfold thunk in He, Hgave. rewrite requests_get_outcome in He.
    rewrite requests_get_states in Hgave. fold thunk in Hgave.
    exists e. split; [exact He|]. now rewrite Hrun, Hgave.
Qed.

Lemma get_my_projects_wire_witness :
  exists e,
    ssl_network (replicate 5
                   (HttpGet "https://lgtm.com/internal_api/v0.2/getMyProjects?apiVersion=5b0cb1a"
                      [("lgtm_long_session"%string, "long"%string);
                       ("lgtm_short_session"%string, "short"%string)]
                      [("LGTM-Nonce"%string, "n0"%string)])) = Raise e
    /\ get_my_projects sample_repr ssl_network sample_site [] =
       (Raise (LGTMRequestException "SSL Error" (Some e)),
        replicate 5
          (HttpGet "https://lgtm.com/internal_api/v0.2/getMyProjects?apiVersion=5b0cb1a"
             [("lgtm_long_session"%string, "long"%string);
              ("lgtm_short_session"%string, "short"%string)]
             [("LGTM-Nonce"%string, "n0"%string)])).
Proof.
  destruct (get_my_projects_wire sample_repr ssl_network sample_site []) as [_ Hssl].
  apply Hssl. intros k Hk. reflexivity.
Defined.
